(** * wptools.core: the request / cache / validation lifecycle

    A shallow embedding of [wptools/core.py] (class [WPTools] and the
    module-level helpers [prettyprint] and [safestr]).  Python values are
    an inductive type, the instance attributes [cache], [data], [flags]
    and [params] are fields of an explicit session state, and methods are
    computations in a state-and-exception monad in which the state
    survives a raised exception, as a Python object survives one. *)

From Stdlib Require Import ZArith String Ascii List Floats.SpecFloat.
From stdpp Require Import base option gmap strings list fin_maps sorting pretty.

Local Set Warnings "-register-all".
Local Open Scope string_scope.
Local Open Scope Z_scope.

(** ** Python values *)

(** The values that [json.loads] produces, plus tuples (the formatter
    distinguishes them).  A [dict] is kept as an association list in
    insertion order; its keys are text, as JSON object keys are. *)
Inductive pyval : Type :=
| PyNone
| PyBool (b : bool)
| PyInt (z : Z)
| PyFloat (f : spec_float)
| PyStr (s : string)
| PyList (l : list pyval)
| PyTuple (l : list pyval)
| PyDict (d : list (string * pyval)).

(** Python truth value testing: [None], [False], zero, and empty text
    and containers are false. *)
Definition truthy (v : pyval) : bool :=
  match v with
  | PyNone => false
  | PyBool b => b
  | PyInt z => negb (z =? 0)
  | PyFloat (S754_zero _) => false
  | PyFloat _ => true
  | PyStr s => negb (String.eqb s "")
  | PyList l | PyTuple l => negb (bool_decide (l = []))
  | PyDict d => negb (bool_decide (d = []))
  end.

(** [x or y] *)
Definition py_or (x y : pyval) : pyval := if truthy x then x else y.

(** [utils.is_text]: an [isinstance] test against the text type. *)
Definition is_text (v : pyval) : bool :=
  match v with PyStr _ => true | _ => false end.

Fixpoint assoc_get {A} (k : string) (d : list (string * A)) : option A :=
  match d with
  | [] => None
  | (k', v) :: d' => if String.eqb k k' then Some v else assoc_get k d'
  end.

(** ** Python exceptions *)

(** Session parameters: [self.params].  ['lang'] is always set; the
    other keys are optional. *)
Record Params := mkParams {
  lang : string;
  title : option string;
  pageid : option Z;
  variant : option string;
  wiki : option string
}.

(** The argument of an exception: text, or for the empty-response case
    the text ["Empty response: %s" % self.params], kept as the params
    it is formatted from. *)
Inductive message : Type :=
| Msg (s : string)
| EmptyResponseOf (p : Params).

Inductive exn : Type :=
| ValueError (m : message)
| LookupError (m : message)
| KeyError (k : pyval)
| IndexError
| TypeError
| AttributeError
| NotImplementedError
| TransportError (m : string).

Definition result (A : Type) : Type := exn + A.

(** ** Text operations *)

Module Text.

(** [needle in hay] on text: substring test. *)
Fixpoint contains (needle hay : string) : bool :=
  String.prefix needle hay ||
  match hay with
  | EmptyString => false
  | String _ hay' => contains needle hay'
  end.

(** [s.replace(old, new)] for non-empty [old]: every occurrence, left
    to right, without overlap.  [skip] counts the characters of a
    match still to be dropped. *)
Fixpoint replace_from (old new : string) (skip : nat) (s : string) : string :=
  match s with
  | EmptyString => EmptyString
  | String c s' =>
      match skip with
      | S k => replace_from old new k s'
      | O =>
          if String.prefix old s
          then new +:+ replace_from old new (Nat.pred (String.length old)) s'
          else String c (replace_from old new O s')
      end
  end.

Definition replace (old new s : string) : string := replace_from old new O s.

(** [s[:n]], with Python's reading of a negative bound. *)
Definition slice_to (s : string) (n : Z) : string :=
  let len := Z.of_nat (String.length s) in
  let stop := if n <? 0 then Z.max 0 (len + n) else n in
  String.substring 0 (Z.to_nat stop) s.

Definition is_space (c : ascii) : bool :=
  let n := nat_of_ascii c in
  ((9 <=? n)%nat && (n <=? 13)%nat) || ((28 <=? n)%nat && (n <=? 32)%nat).

Fixpoint lstrip (s : string) : string :=
  match s with
  | EmptyString => EmptyString
  | String c s' => if is_space c then lstrip s' else s
  end.

Definition rstrip (s : string) : string :=
  String.rev (lstrip (String.rev s)).

(** [s.strip()] *)
Definition strip (s : string) : string := rstrip (lstrip s).

(** [sep.join(l)] *)
Fixpoint join (sep : string) (l : list string) : string :=
  match l with
  | [] => ""
  | [x] => x
  | x :: l' => x +:+ sep +:+ join sep l'
  end.

Definition len (s : string) : Z := Z.of_nat (String.length s).

End Text.

(** ** Reading JSON *)

Module Json.

(** The double quote, written by its code. *)
Definition dquote : ascii := ascii_of_nat 34.
Definition backslash : ascii := ascii_of_nat 92.

(** Payloads are written with single quotes in this file and turned
    into JSON text by putting the double quote in their place. *)
Fixpoint text (s : string) : string :=
  match s with
  | EmptyString => EmptyString
  | String c s' => String (if Ascii.eqb c "'" then dquote else c) (text s')
  end.

Definition is_ws (c : ascii) : bool :=
  Ascii.eqb c " " || Ascii.eqb c "009" || Ascii.eqb c "010" || Ascii.eqb c "013".

Fixpoint skip_ws (s : string) : string :=
  match s with
  | String c s' => if is_ws c then skip_ws s' else s
  | EmptyString => s
  end.

Definition unescape (c : ascii) : option ascii :=
  if Ascii.eqb c dquote then Some dquote
  else if Ascii.eqb c backslash then Some backslash
  else if Ascii.eqb c "/" then Some "/"%char
  else if Ascii.eqb c "b" then Some "008"%char
  else if Ascii.eqb c "f" then Some "012"%char
  else if Ascii.eqb c "n" then Some "010"%char
  else if Ascii.eqb c "r" then Some "013"%char
  else if Ascii.eqb c "t" then Some "009"%char
  else None.

(** The characters of a string literal after its opening quote, up to
    the closing one, and the text after it. *)
Fixpoint chars (s : string) : option (string * string) :=
  match s with
  | EmptyString => None
  | String c s' =>
      if Ascii.eqb c dquote then Some (EmptyString, s')
      else if Ascii.eqb c backslash then
        match s' with
        | String e s'' =>
            match unescape e, chars s'' with
            | Some c', Some (t, r) => Some (String c' t, r)
            | _, _ => None
            end
        | EmptyString => None
        end
      else if (nat_of_ascii c <? 32)%nat then None
      else match chars s' with
           | Some (t, r) => Some (String c t, r)
           | None => None
           end
  end.

Definition digit (c : ascii) : option Z :=
  let n := nat_of_ascii c in
  if (48 <=? n)%nat && (n <=? 57)%nat then Some (Z.of_nat n - 48) else None.

Fixpoint digits (acc : Z) (s : string) : Z * string :=
  match s with
  | String c s' =>
      match digit c with
      | Some d => digits (10 * acc + d) s'
      | None => (acc, s)
      end
  | EmptyString => (acc, s)
  end.

(** An integer literal: no leading zero, no fraction, no exponent. *)
Definition integer (s : string) : option (Z * string) :=
  match s with
  | String c s' =>
      match digit c with
      | Some d =>
          let '(n, r) := digits d s' in
          let plain :=
            match r with
            | String x _ => negb (Ascii.eqb x "." || Ascii.eqb x "e" || Ascii.eqb x "E")
            | EmptyString => true
            end in
          if plain && (negb (d =? 0) || bool_decide (r = s')) then Some (n, r) else None
      | None => None
      end
  | EmptyString => None
  end.

(** [d[k] = v] on a dict kept in insertion order. *)
Fixpoint dict_set (k : string) (v : pyval) (d : list (string * pyval))
  : list (string * pyval) :=
  match d with
  | [] => [(k, v)]
  | (k', v') :: d' =>
      if String.eqb k k' then (k, v) :: d' else (k', v') :: dict_set k v d'
  end.

Section Containers.
Variable value : string -> option (pyval * string).

(** The elements of an array after the first bracket. *)
Fixpoint elements (fuel : nat) (s : string) : option (list pyval * string) :=
  match fuel with
  | O => None
  | S fuel' =>
      match value s with
      | Some (v, r) =>
          match skip_ws r with
          | String "," r' =>
              match elements fuel' r' with
              | Some (vs, r'') => Some (v :: vs, r'')
              | None => None
              end
          | String "]" r' => Some ([v], r')
          | _ => None
          end
      | None => None
      end
  end.

(** The members of an object after the first brace, added to [acc]. *)
Fixpoint members (fuel : nat) (acc : list (string * pyval)) (s : string)
  : option (list (string * pyval) * string) :=
  match fuel with
  | O => None
  | S fuel' =>
      match skip_ws s with
      | String q r =>
          if Ascii.eqb q dquote then
            match chars r with
            | Some (k, r1) =>
                match skip_ws r1 with
                | String ":" r2 =>
                    match value r2 with
                    | Some (v, r3) =>
                        let acc' := dict_set k v acc in
                        match skip_ws r3 with
                        | String "," r4 => members fuel' acc' r4
                        | String "}" r4 => Some (acc', r4)
                        | _ => None
                        end
                    | None => None
                    end
                | _ => None
                end
            | None => None
            end
          else None
      | EmptyString => None
      end
  end.

End Containers.

Fixpoint value (fuel : nat) (s : string) : option (pyval * string) :=
  match fuel with
  | O => None
  | S fuel' =>
      match skip_ws s with
      | String "{" r =>
          match skip_ws r with
          | String "}" r' => Some (PyDict [], r')
          | _ =>
              match members (value fuel') fuel' [] r with
              | Some (d, r') => Some (PyDict d, r')
              | None => None
              end
          end
      | String "[" r =>
          match skip_ws r with
          | String "]" r' => Some (PyList [], r')
          | _ =>
              match elements (value fuel') fuel' r with
              | Some (l, r') => Some (PyList l, r')
              | None => None
              end
          end
      | String "-" r =>
          match integer r with
          | Some (n, r') => Some (PyInt (- n), r')
          | None => None
          end
      | String c r as s0 =>
          if Ascii.eqb c dquote then
            match chars r with
            | Some (t, r') => Some (PyStr t, r')
            | None => None
            end
          else if String.prefix "true" s0 then Some (PyBool true, String.substring 4 (String.length s0 - 4) s0)
          else if String.prefix "false" s0 then Some (PyBool false, String.substring 5 (String.length s0 - 5) s0)
          else if String.prefix "null" s0 then Some (PyNone, String.substring 4 (String.length s0 - 4) s0)
          else match integer s0 with
               | Some (n, r') => Some (PyInt n, r')
               | None => None
               end
      | EmptyString => None
      end
  end.

(** Modelled from the spec: [utils.json_loads], the wrapper of the
    standard [json.loads] that is not among the sources.  This decoder
    reads the JSON texts that have no fraction, exponent, non-finite
    number or unicode escape, on which it gives the value [json.loads]
    gives; [None] stands for the [ValueError] of a text that does not
    parse.  It instantiates the decoder collaborator in the examples;
    the general statements hold for any decoder. *)
Definition loads (s : string) : option pyval :=
  match value (S (String.length s)) s with
  | Some (v, r) => if String.eqb (skip_ws r) EmptyString then Some v else None
  | None => None
  end.

End Json.

(** ** Session state *)

(** What the transport hands back as the response: Python's [None] or
    the body text. *)
Inductive body : Type :=
| NoBody
| Body (text : string).

(** [not response] is true of [None] and of the empty text. *)
Definition body_truthy (b : body) : bool :=
  match b with
  | NoBody => false
  | Body t => negb (String.eqb t EmptyString)
  end.

(** One entry of [self.cache]: a dict that starts empty and gains the
    keys ['query'], ['response'] and ['info'].  A field is [None] while
    its key is absent. *)
Record ActionRecord := mkRecord {
  rec_query : option string;
  rec_response : option body;
  rec_info : option pyval
}.

Definition empty_record : ActionRecord := mkRecord None None None.

(** [self.flags]: ['skip'] is a key only when a non-empty skip list was
    given. *)
Record Flags := mkFlags {
  silent : bool;
  verbose : bool;
  skip : option (list string)
}.

(** [self.data], a dict from field name to value, in insertion order. *)
Definition Data : Type := list (string * pyval).

(** The keyword arguments that [__init__] reads. *)
Record Kwargs := mkKwargs {
  kw_silent : bool;
  kw_verbose : bool;
  kw_lang : option string;
  kw_skip : list string;
  kw_variant : option string;
  kw_wiki : option string
}.

(** One invocation of the transport: the action it was made for, the
    two arguments of [req.get], and what came back: the response with
    the request info, or an exception. *)
Record Request := mkRequest {
  rq_action : string;
  rq_query : string;
  rq_status : pyval;
  rq_result : result (body * pyval)
}.

(** The parts of the program that [core.py] calls and does not define:
    the constants of [WPToolsQuery], the decoder and text conversion of
    [utils] and the builtins, the transport of [request], and the two
    methods that a subclass must implement. *)
Class Collaborators := {
  (** the network and everything else outside the session *)
  World : Type;
  (** [WPToolsQuery.MAXWIDTH] and [WPToolsQuery.RPAD] *)
  MAXWIDTH : Z;
  RPAD : Z;
  (** [WPToolsQuery(lang=.., wiki=.., variant=..)], the query object
      built for one request, and its [status] attribute *)
  WPToolsQuery : Type;
  query_new : string -> option string -> option string -> WPToolsQuery;
  query_status : WPToolsQuery -> pyval;
  (** [utils.json_loads], applied to what the transport returned; it
      raises [ValueError] on a text that does not parse *)
  json_loads : body -> result pyval;
  (** [str(v)] on the values whose text is not fixed below *)
  builtin_str : pyval -> string;
  (** [self._query(action, qobj)]: the query string, and the query
      object as the builder left it; it may read the session's params
      and data *)
  _query : string -> WPToolsQuery -> Params -> Data -> result (string * WPToolsQuery);
  (** the part of [self._set_data(action)] that follows the load of the
      response: it reads the validated payload into data and params *)
  capture : string -> pyval -> Data -> Params -> result (Data * Params);
  (** [WPToolsRequest(silent, verbose, proxy, timeout).get(qstr, status)]
      and the [info] attribute it leaves on the request object *)
  request_get : bool -> bool -> pyval -> pyval -> string -> pyval ->
                World -> result (body * pyval) * World
}.

Section Core.
Context `{C : Collaborators}.

(** The instance attributes of a [WPTools] object, the diagnostic
    channel it writes to, the world its transport talks to, and the
    trace of the transport invocations made so far (latest first).  The
    trace is read by no method: it is there for statements about how
    often the transport is called. *)
Record Session := mkSession {
  cache : gmap string ActionRecord;
  data : Data;
  flags : Flags;
  params : Params;
  err : list string;
  world : World;
  requests : list Request
}.

Definition set_cache (f : gmap string ActionRecord -> gmap string ActionRecord)
  (s : Session) : Session :=
  mkSession (f (cache s)) (data s) (flags s) (params s) (err s) (world s) (requests s).

Definition set_err (f : list string -> list string) (s : Session) : Session :=
  mkSession (cache s) (data s) (flags s) (params s) (f (err s)) (world s) (requests s).

Definition set_data_params (d : Data) (p : Params) (s : Session) : Session :=
  mkSession (cache s) d (flags s) p (err s) (world s) (requests s).

Definition set_world (w : World) (r : Request) (s : Session) : Session :=
  mkSession (cache s) (data s) (flags s) (params s) (err s) w (r :: requests s).

(** ** Computations *)

(** A method body: it runs from a session state, returns or raises, and
    leaves a session state either way. *)
Definition M (A : Type) : Type := Session -> result A * Session.

#[export] Instance M_ret : MRet M := fun A x s => (inr x, s).

#[export] Instance M_bind : MBind M := fun A B f m s =>
  match m s with
  | (inl e, s') => (inl e, s')
  | (inr x, s') => f x s'
  end.

Definition raise {A} (e : exn) : M A := fun s => (inl e, s).
Definition reads {A} (f : Session -> A) : M A := fun s => (inr (f s), s).
Definition modify (f : Session -> Session) : M unit := fun s => (inr tt, f s).
Definition lift {A} (r : result A) : M A := fun s => (r, s).

(** [for x in l: body(x)] *)
Fixpoint for_each {A} (l : list A) (body : A -> M unit) : M unit :=
  match l with
  | [] => mret tt
  | x :: l' => body x;; for_each l' body
  end.

(** Modelled from the spec: [utils.stderr(msg, silent=False)], which is
    not among the sources: a line on the diagnostic channel unless
    [silent]. *)
Definition stderr (msg : string) (silent : bool) : M unit :=
  if silent then mret tt else modify (set_err (fun l => (l ++ [msg])%list)).

(** ** Operations on values *)

(** [v.get(k)]: only a dict has the method. *)
Definition py_get (v : pyval) (k : string) : result pyval :=
  match v with
  | PyDict d => inr (default PyNone (assoc_get k d))
  | _ => inl AttributeError
  end.

(** [v[k]] for a text key. *)
Definition py_item (v : pyval) (k : string) : result pyval :=
  match v with
  | PyDict d =>
      match assoc_get k d with
      | Some x => inr x
      | None => inl (KeyError (PyStr k))
      end
  | _ => inl TypeError
  end.

(** [v[0]] *)
Definition py_first (v : pyval) : result pyval :=
  match v with
  | PyList (x :: _) | PyTuple (x :: _) => inr x
  | PyList [] | PyTuple [] => inl IndexError
  | PyStr (String c _) => inr (PyStr (String c EmptyString))
  | PyStr EmptyString => inl IndexError
  | PyDict _ => inl (KeyError (PyInt 0))
  | _ => inl TypeError
  end.

(** [k in v] for a text [k]: key of a dict, element of a sequence,
    part of a text; a [TypeError] on what is not iterable. *)
Definition py_contains (k : string) (v : pyval) : result bool :=
  match v with
  | PyDict d => inr (bool_decide (is_Some (assoc_get k d)))
  | PyList l | PyTuple l =>
      inr (existsb (fun x => match x with PyStr s => String.eqb s k | _ => false end) l)
  | PyStr s => inr (Text.contains k s)
  | _ => inl TypeError
  end.

(** [str(v)], as [%s] formats a value. *)
Definition py_str (v : pyval) : string :=
  match v with
  | PyNone => "None"
  | PyBool true => "True"
  | PyBool false => "False"
  | PyInt z => pretty z
  | PyStr s => s
  | _ => builtin_str v
  end.

(** [safestr]: [None] for [None], else the text of the value. *)
Definition safestr (text : pyval) : pyval :=
  match text with
  | PyNone => PyNone
  | _ => PyStr (py_str text)
  end.

(** [', '.join(..)] over values: every one of them must be text. *)
Fixpoint py_join (sep : string) (l : list pyval) : result (list string) :=
  match l with
  | [] => inr []
  | PyStr s :: l' =>
      match py_join sep l' with
      | inr ss => inr (s :: ss)
      | inl e => inl e
      end
  | _ :: _ => inl TypeError
  end.

(** ** The class [WPTools] *)

Definition __init__ (args : list string) (kwargs : Kwargs) (w : World) : Session :=
  let flags0 := mkFlags (kw_silent kwargs) (kw_verbose kwargs) None in
  let lang0 :=
    match kw_lang kwargs with
    | Some l => if String.eqb l EmptyString then "en" else l
    | None => "en"
    end in
  let title0 :=
    match args with
    | t :: _ => if String.eqb t EmptyString then None else Some t
    | [] => None
    end in
  let flags1 :=
    match kw_skip kwargs with
    | [] => flags0
    | sk => mkFlags (silent flags0) (verbose flags0) (Some sk)
    end in
  let nonempty (o : option string) :=
    match o with
    | Some x => if String.eqb x EmptyString then None else Some x
    | None => None
    end in
  mkSession ∅ [] flags1
    (mkParams lang0 title0 None (nonempty (kw_variant kwargs)) (nonempty (kw_wiki kwargs)))
    [] w [].

(** [self.cache[action]] *)
Definition cache_item (action : string) : M ActionRecord :=
  c ← reads cache;
  match c !! action with
  | Some r => mret r
  | None => raise (KeyError (PyStr action))
  end.

(** [record[key]] *)
Definition field {A} (key : string) (f : option A) : M A :=
  match f with
  | Some x => mret x
  | None => raise (KeyError (PyStr key))
  end.

(** [self.cache[action][key] = x] *)
Definition store (action : string) (f : ActionRecord -> ActionRecord) : M unit :=
  r ← cache_item action;
  modify (set_cache (<[action := f r]>)).

Definition set_query (q : string) (r : ActionRecord) : ActionRecord :=
  mkRecord (Some q) (rec_response r) (rec_info r).
Definition set_response (b : body) (r : ActionRecord) : ActionRecord :=
  mkRecord (rec_query r) (Some b) (rec_info r).
Definition set_info (i : pyval) (r : ActionRecord) : ActionRecord :=
  mkRecord (rec_query r) (rec_response r) (Some i).

(** [self.flags.get('skip') and action in self.flags['skip']] *)
Definition in_skip (fl : Flags) (action : string) : bool :=
  match skip fl with
  | Some sk => negb (bool_decide (sk = [])) && bool_decide (action ∈ sk)
  | None => false
  end.

(** [prettyprint]: print page data strings to stderr. *)
Definition prettyprint (datastr : list string) : M unit :=
  let maxwidth := MAXWIDTH in
  let rpad := RPAD in
  let extent := maxwidth - (rpad + 2) in
  for_each datastr (fun line =>
    let line :=
      if Text.len line >=? maxwidth
      then Text.slice_to line extent +:+ "..."
      else line in
    stderr line false).

Definition newline : string := String (ascii_of_nat 10) EmptyString.

Definition counted (prefix kind : string) (n : nat) : string :=
  prefix +:+ ": <" +:+ kind +:+ "(" +:+ pretty n +:+ ")>".

(** The body of the loop of [show] for one item: the line it appends,
    or nothing for a [None] value. *)
Definition show_item (maxwidth : Z) (item : string) (value : pyval)
  : result (option string) :=
  let line (prefix : string) (value : pyval) : result (option string) :=
    inr (Some ("  " +:+ prefix +:+ " " +:+ py_str value)) in
  let joined (prefix : string) (l : list pyval) : result (option string) :=
    match py_join ", " (map safestr (filter (fun x => truthy x = true) l)) with
    | inr ss => line prefix (PyStr (Text.join ", " ss))
    | inl e => inl e
    end in
  match value with
  | PyNone => inr None
  | PyDict d => line (counted item "dict" (length d)) (PyStr (Text.join ", " (d.*1)))
  | PyInt _ | PyBool _ => line (item +:+ ":") value
  | PyList l => joined (counted item "list" (length l)) l
  | PyTuple l => joined (counted item "tuple" (length l)) l
  | PyStr s =>
      let v := Text.replace newline EmptyString (Text.strip s) in
      if Text.len v >? maxwidth - Text.len item
      then line (counted item "str" (String.length v)) (PyStr v)
      else line (item +:+ ":") (PyStr v)
  | _ => line item value
  end.

Definition str_le (a b : string) : Prop := String.leb a b = true.

#[export] Instance str_le_dec a b : Decision (str_le a b).
Proof. unfold str_le. apply _. Defined.

(** [sorted(self.data)] *)
Definition sorted_keys (d : Data) : list string := merge_sort str_le (d.*1).

Fixpoint show_items (maxwidth : Z) (d : Data) (items : list string)
  : result (list string) :=
  match items with
  | [] => inr []
  | item :: items' =>
      match assoc_get item d with
      | None => inl (KeyError (PyStr item))
      | Some value =>
          match show_item maxwidth item value, show_items maxwidth d items' with
          | inl e, _ => inl e
          | inr _, inl e => inl e
          | inr None, inr ls => inr ls
          | inr (Some l), inr ls => inr (l :: ls)
          end
      end
  end.

(** [show]: pretty-print instance data. *)
Definition show : M unit :=
  fl ← reads flags;
  d ← reads data;
  if silent fl || bool_decide (d = []) then mret tt
  else
    p ← reads params;
    let ptitle := from_option PyStr PyNone (title p) in
    let dtitle := default PyNone (assoc_get "title" d) in
    let pageid0 := from_option PyInt PyNone (pageid p) in
    let seed := py_or (py_or dtitle ptitle) pageid0 in
    let seed :=
      match seed with
      | PyStr s => PyStr (Text.replace "_" " " s)
      | _ => seed
      end in
    let output := [py_str seed +:+ " (" +:+ lang p +:+ ") data"; "{"] in
    let maxwidth := MAXWIDTH in
    body ← lift (show_items maxwidth d (sorted_keys d));
    prettyprint (output ++ body ++ ["}"])%list.

(** The checks of [_load_response], from the test of the response on:
    the validator, as a function of the action, of the query string
    without its format marker and of the response read from the cache. *)
Definition validate (action _query : string) (response : body) : M pyval :=
  if negb (body_truthy response) then
    p ← reads params;
    raise (ValueError (EmptyResponseOf p))
  else
    match json_loads response with
    | inl (ValueError _) => raise (ValueError (Msg _query))
    | inl e => raise e
    | inr data =>
        warnings ← lift (py_get data "warnings");
        (if truthy warnings
         then stderr ("API warning: " +:+ py_str warnings) false
         else mret tt);;
        error ← lift (py_get data "error");
        if truthy error then
          stderr ("API error: " +:+ py_str error) false;;
          raise (LookupError (Msg _query))
        else
          missing ←
            (if Text.contains "query" action then
               query ← lift (py_get data "query");
               if truthy query then
                 query ← lift (py_item data "query");
                 pages ← lift (py_get query "pages");
                 if truthy pages then
                   query ← lift (py_item data "query");
                   pages ← lift (py_item query "pages");
                   page ← lift (py_first pages);
                   missing ← lift (py_get page "missing");
                   mret (truthy missing)
                 else mret false
               else mret false
             else mret false);
          if missing : bool then raise (LookupError (Msg _query))
          else
            noparse ←
              (if String.eqb action "parse" then
                 parse ← lift (py_get data "parse");
                 mret (negb (truthy parse))
               else mret false);
            if noparse : bool then raise (LookupError (Msg _query))
            else
              noentity ←
                (if String.eqb action "wikidata" then
                   entities ← lift (py_get data "entities");
                   lift (py_contains "-1" entities)
                 else mret false);
              if noentity : bool then raise (LookupError (Msg _query))
              else mret data
    end.

(** [_load_response]: returns the API response from the cache or
    raises. *)
Definition _load_response (action : string) : M pyval :=
  r ← cache_item action;
  q ← field "query" (rec_query r);
  let _query := Text.replace "&format=json" EmptyString q in
  r ← cache_item action;
  response ← field "response" (rec_response r);
  validate action _query response.

(** Modelled from the spec: [_set_data], which [core.py] leaves to the
    subclasses that are not among the sources: the response is loaded
    and validated, and the extraction collaborator reads the payload
    into the data and the params; a failure of either propagates. *)
Definition _set_data (action : string) : M unit :=
  payload ← _load_response action;
  d ← reads data;
  p ← reads params;
  '(d', p') ← lift (capture action payload d p);
  modify (set_data_params d' p').

(** [req.get(qstr, qobj.status)] on a fresh request object, noted in the
    trace. *)
Definition transport (action : string) (proxy timeout : pyval)
  (qstr : string) (status : pyval) : M (body * pyval) := fun s =>
  let '(r, w) :=
    request_get (silent (flags s)) (verbose (flags s)) proxy timeout
      qstr status (world s) in
  (r, set_world w (mkRequest action qstr status r) s).

(** The part of [_get] from the creation of the request object on. *)
Definition _get_request (action qstr : string) (qobj : WPToolsQuery)
  (show_after : bool) (proxy timeout : pyval) : M unit :=
  '(response, info) ← transport action proxy timeout qstr (query_status qobj);
  store action (set_response response);;
  store action (set_info info);;
  _set_data action;;
  if show_after then show else mret tt.

(** [_get]: make the HTTP request and cache the response. *)
Definition _get (action : string) (show_after : bool) (proxy timeout : pyval)
  : M unit :=
  fl ← reads flags;
  let silent0 := silent fl in
  c ← reads cache;
  let cached := bool_decide (is_Some (c !! action)) in
  if cached && negb (String.eqb action "imageinfo") then
    stderr ("+ " +:+ action +:+ " results in cache") silent0
  else
    (if cached then mret tt
     else modify (set_cache (<[action := empty_record]>)));;
    fl ← reads flags;
    if in_skip fl action then
      if negb (silent fl) then stderr ("+ skipping " +:+ action) false
      else mret tt
    else
      p ← reads params;
      d ← reads data;
      let qobj := query_new (lang p) (wiki p) (variant p) in
      '(qstr, qobj) ← lift (_query action qobj p d);
      store action (set_query qstr);;
      _get_request action qstr qobj show_after proxy timeout.

(** ** The inspectors *)

(** What an inspector returns: the item asked for, the names of the
    cached actions, or [None]. *)
Inductive answer (A : Type) : Type :=
| Found (a : A)
| Actions (names : gset string)
| NoResult.
Arguments Found {A} a.
Arguments Actions {A} names.
Arguments NoResult {A}.

(** [self.cache.keys() or None] *)
Definition cached_actions {A} : M (answer A) :=
  c ← reads cache;
  mret (if bool_decide (dom c = ∅) then NoResult else Actions (dom c)).

(** [action in self.cache], for an action that may be [None] *)
Definition cached (action : option string) : M (option ActionRecord) :=
  c ← reads cache;
  mret (action ≫= fun a => c !! a).

(** [info]: the cached request info of an action, or the cached
    actions. *)
Definition info (action : option string) : M (answer pyval) :=
  r ← cached action;
  match r with
  | Some r => i ← field "info" (rec_info r); mret (Found i)
  | None => cached_actions
  end.

(** [query]: the cached query string (without [&format=json]) of an
    action, or the cached actions. *)
Definition query (action : option string) : M (answer string) :=
  r ← cached action;
  match r with
  | Some r =>
      q ← field "query" (rec_query r);
      mret (Found (Text.replace "&format=json" EmptyString q))
  | None => cached_actions
  end.

(** [response]: the cached response (as a dict) of an action, or the
    cached actions. *)
Definition response (action : option string) : M (answer pyval) :=
  r ← cached action;
  match r with
  | Some r =>
      b ← field "response" (rec_response r);
      v ← lift (json_loads b);
      mret (Found v)
  | None => cached_actions
  end.

(** ** Runs of a session *)

(** A call of [_get] with its arguments. *)
Record Fetch := mkFetch {
  f_action : string;
  f_show : bool;
  f_proxy : pyval;
  f_timeout : pyval
}.

Definition fetch (f : Fetch) : M unit :=
  _get (f_action f) (f_show f) (f_proxy f) (f_timeout f).

(** The session after a sequence of calls of [_get], each of which may
    return or raise. *)
Definition run (fs : list Fetch) (s : Session) : Session :=
  fold_left (fun s f => (fetch f s).2) fs s.

(** The invocations of the transport made for an action. *)
Definition invocations (action : string) (s : Session) : nat :=
  length (filter (fun r => rq_action r = action) (requests s)).

(** ** Frames *)

(** A computation respects a relation on session states when every run
    of it, returning or raising, ends in a state related to the one it
    started from. *)
Definition respects (R : relation Session) {A} (m : M A) : Prop :=
  forall s, R s (m s).2.

(** Nothing but the diagnostic channel differs. *)
Definition quiet (s s' : Session) : Prop :=
  cache s' = cache s /\ data s' = data s /\ flags s' = flags s /\
  params s' = params s /\ world s' = world s /\ requests s' = requests s.

(** The cache, the flags and the transport are untouched. *)
Definition same_store (s s' : Session) : Prop :=
  cache s' = cache s /\ flags s' = flags s /\
  world s' = world s /\ requests s' = requests s.

(** What a fetch of [a] leaves alone: the flags, the records of the
    other actions, and the transport but for invocations made for [a]. *)
Definition off (a : string) (s s' : Session) : Prop :=
  flags s' = flags s /\
  (forall b, b <> a -> cache s' !! b = cache s !! b) /\
  (is_Some (cache s !! a) -> is_Some (cache s' !! a)) /\
  exists new, requests s' = (new ++ requests s)%list /\
              Forall (fun r => rq_action r = a) new.

(** The line that [prettyprint] writes for a line of the data. *)
Definition clipped (line : string) : string :=
  if Text.len line >=? MAXWIDTH
  then Text.slice_to line (MAXWIDTH - (RPAD + 2)) +:+ "..."
  else line.

(** Every value that the computation returns satisfies [P]. *)
Definition yields {A} (P : A -> Prop) (m : M A) : Prop :=
  forall s v s', m s = (inr v, s') -> P v.

(** The session in which [_get] has passed the cache test for an action
    that is not cached: the placeholder is in place. *)
Definition entered (a : string) (s : Session) : Session :=
  if bool_decide (is_Some (cache s !! a)) then s
  else set_cache (<[a := empty_record]>) s.

(** The session in which the query string of a fetch is recorded. *)
Definition queried (a qstr : string) (s : Session) : Session :=
  set_cache (<[a := set_query qstr (default empty_record (cache s !! a))]>) s.

End Core.

Arguments Found {A} a.
Arguments Actions {A} names.
Arguments NoResult {A}.
Arguments set_cache {C} f s /.
Arguments set_err {C} f s /.
Arguments set_data_params {C} d p s /.
Arguments set_world {C} w r s /.

(** The failures that the validator raises on purpose: the empty or
    malformed response ([ValueError]), the API error and the missing
    page or entity ([LookupError]), and the method a subclass did not
    implement.  Every other exception is an accident of the payload. *)
Definition classified (e : exn) : bool :=
  match e with
  | ValueError _ | LookupError _ | NotImplementedError => true
  | _ => false
  end.

(** ** A session for the examples *)

(** The fixture of [tests/rest_page.py]. *)
Module RestPage.

Definition query : string := "https://en.wikipedia.org/api/rest_v1/page/".

Definition response : string :=
  Json.text "{'items':['data-parsoid','graph','html','mobile-sections','mobile-sections-lead','mobile-sections-remaining','pdf','random','related','segments','summary','title','wikitext']}".

Definition info : pyval := PyDict [("content", PyStr "TEST"); ("status", PyInt 200)].

Definition cache : ActionRecord :=
  mkRecord (Some query) (Some (Body response)) (Some info).

End RestPage.

(** Collaborators for the examples: the world is the script of what the
    network will answer, one entry per request, and the widths are those
    of a terminal line.  The builder asks the action of the API of the
    session's language, and the extraction files the payload under the
    name of the action. *)
Module Canned.

Record Query := mkQuery {
  q_lang : string;
  q_wiki : option string;
  q_variant : option string;
  q_status : pyval
}.

Definition loads (b : body) : result pyval :=
  match b with
  | NoBody => inl TypeError
  | Body t =>
      match Json.loads t with
      | Some v => inr v
      | None => inl (ValueError (Msg "No JSON object could be decoded"))
      end
  end.

Definition build (action : string) (q : Query) (p : Params) (d : Data)
  : result (string * Query) :=
  if String.eqb action "rest" then
    inr (RestPage.query, mkQuery (q_lang q) (q_wiki q) (q_variant q) (PyStr RestPage.query))
  else
    let url := "https://" +:+ q_lang q +:+ ".wikipedia.org/w/api.php?action="
               +:+ action +:+ "&format=json" in
    inr (url, mkQuery (q_lang q) (q_wiki q) (q_variant q) (PyStr url)).

Definition get (silent verbose : bool) (proxy timeout : pyval) (qstr : string)
  (status : pyval) (w : list (result (body * pyval)))
  : result (body * pyval) * list (result (body * pyval)) :=
  match w with
  | r :: w' => (r, w')
  | [] => (inr (NoBody, PyNone), [])
  end.

Definition collaborators : Collaborators := {|
  World := list (result (body * pyval));
  MAXWIDTH := 72;
  RPAD := 4;
  WPToolsQuery := Query;
  query_new := fun l w v => mkQuery l w v PyNone;
  query_status := q_status;
  json_loads := loads;
  builtin_str := fun _ => "<value>";
  _query := build;
  capture := fun action payload d p => inr (Json.dict_set action payload d, p);
  request_get := get
|}.

(** A session on the English wiki, optionally with a skip list. *)
Definition fresh (sk : list string) (w : list (result (body * pyval)))
  : Session (C := collaborators) :=
  __init__ (C := collaborators) ["Douglas Adams"]
    (mkKwargs true false None sk None None) w.

(** A session that holds [record] for [action]. *)
Definition holding (action : string) (record : ActionRecord)
  : Session (C := collaborators) :=
  set_cache (C := collaborators) (<[action := record]>) (fresh [] []).

Definition ok (payload : string) : result (body * pyval) :=
  inr (Body (Json.text payload), RestPage.info).

End Canned.

(** ** Sessions for the further properties *)

Section Diagnostics.
Context `{C : Collaborators}.

(** The session after the warning check of the validator on a decoded
    mapping: the warning line is on the diagnostic channel when the
    mapping has a true value for warnings. *)
Definition warned (d : list (string * pyval)) (s : Session) : Session :=
  let w := default PyNone (assoc_get "warnings" d) in
  if truthy w then set_err (fun l => (l ++ ["API warning: " +:+ py_str w])%list) s
  else s.

End Diagnostics.

(** The class as [core.py] defines it, with no subclass: both abstract
    methods raise [NotImplementedError]. *)
Module Abstract.

Definition collaborators : Collaborators := {|
  World := unit;
  MAXWIDTH := 72;
  RPAD := 4;
  WPToolsQuery := Canned.Query;
  query_new := fun l w v => Canned.mkQuery l w v PyNone;
  query_status := Canned.q_status;
  json_loads := Canned.loads;
  builtin_str := fun _ => "<value>";
  _query := fun _ _ _ _ => inl NotImplementedError;
  capture := fun _ _ _ _ => inl NotImplementedError;
  request_get := fun _ _ _ _ _ _ w => (inr (NoBody, PyNone), w)
|}.

End Abstract.

(** * Properties *)

(** The fields of a session that was just built. *)
Ltac fields :=
  repeat progress (
    try change (cache (mkSession ?c _ _ _ _ _ _)) with c;
    try change (data (mkSession _ ?d _ _ _ _ _)) with d;
    try change (flags (mkSession _ _ ?f _ _ _ _)) with f;
    try change (params (mkSession _ _ _ ?p _ _ _)) with p;
    try change (err (mkSession _ _ _ _ ?e _ _)) with e;
    try change (world (mkSession _ _ _ _ _ ?w _)) with w;
    try change (requests (mkSession _ _ _ _ _ _ ?r)) with r).

(** The unfolding of the monad operations. *)
Ltac mrun := cbv beta iota delta [mbind M_bind mret M_ret reads raise lift modify].

Section Frames.
Context `{C : Collaborators}.

#[export] Instance quiet_preorder : PreOrder quiet.
Proof.
  split.
  - by intros s.
  - intros s1 s2 s3 (?&?&?&?&?&?) (?&?&?&?&?&?). unfold quiet. by repeat split; etrans.
Qed.

#[export] Instance same_store_preorder : PreOrder same_store.
Proof.
  split.
  - by intros s.
  - intros s1 s2 s3 (?&?&?&?) (?&?&?&?). unfold same_store. by repeat split; etrans.
Qed.

#[export] Instance off_preorder a : PreOrder (off a).
Proof.
  split.
  - intros s. repeat split; auto. by exists [].
  - intros s1 s2 s3 (F1&O1&K1&n1&R1&A1) (F2&O2&K2&n2&R2&A2).
    split; [by etrans|]. split; [|split].
    + intros b Hb. by rewrite O2, O1.
    + auto.
    + exists (n2 ++ n1)%list. split.
      * by rewrite R2, R1, (assoc_L (++)).
      * by apply Forall_app.
Qed.

Lemma quiet_same_store s s' : quiet s s' -> same_store s s'.
Proof. intros (?&?&?&?&?&?). by repeat split. Qed.

Lemma same_store_off a s s' : same_store s s' -> off a s s'.
Proof.
  intros (Hc&?&?&Hr). split; [done|]. split; [|split].
  - intros. by rewrite Hc.
  - by rewrite Hc.
  - exists []. by rewrite Hr.
Qed.

Section Respect.
Context (R : relation Session) `{!PreOrder R}.

Lemma respects_ret {A} (x : A) : respects R (mret x).
Proof. intros s. reflexivity. Qed.

Lemma respects_raise {A} e : respects R (raise (A := A) e).
Proof. intros s. reflexivity. Qed.

Lemma respects_reads {A} (f : Session -> A) : respects R (reads f).
Proof. intros s. reflexivity. Qed.

Lemma respects_lift {A} (r : result A) : respects R (lift r).
Proof. intros s. reflexivity. Qed.

Lemma respects_bind {A B} (m : M A) (k : A -> M B) :
  respects R m -> (forall x, respects R (k x)) -> respects R (m ≫= k).
Proof.
  intros Hm Hk s. unfold mbind, M_bind. specialize (Hm s).
  destruct (m s) as [[e|x] s1]; [done|]. simpl in Hm.
  etrans; [exact Hm | apply Hk].
Qed.

Lemma respects_for_each {A} (l : list A) (body : A -> M unit) :
  (forall x, respects R (body x)) -> respects R (for_each l body).
Proof.
  intros Hb. induction l as [|x l IH]; simpl.
  - apply respects_ret.
  - apply respects_bind; auto.
Qed.

Lemma respects_if {A} (b : bool) (m1 m2 : M A) :
  respects R m1 -> respects R m2 -> respects R (if b then m1 else m2).
Proof. by destruct b. Qed.

Lemma cache_item_respects a : respects R (cache_item a).
Proof.
  unfold cache_item. apply respects_bind; [apply respects_reads|].
  intros c. destruct (c !! a); [apply respects_ret | apply respects_raise].
Qed.

Lemma field_respects {A} k (f : option A) : respects R (field k f).
Proof. destruct f; [apply respects_ret | apply respects_raise]. Qed.

End Respect.

Lemma respects_weaken (R R' : relation Session) {A} (m : M A) :
  (forall s s', R s s' -> R' s s') -> respects R m -> respects R' m.
Proof. intros HR Hm s. apply HR, Hm. Qed.

(** Frame goals are settled along the structure of the computation. *)
Ltac frame_step :=
  lazymatch goal with
  | |- respects _ (mbind _ _) => apply respects_bind; [apply _ | | intros ?]
  | |- respects _ (mret _) => apply respects_ret; apply _
  | |- respects _ (raise _) => apply respects_raise; apply _
  | |- respects _ (reads _) => apply respects_reads; apply _
  | |- respects _ (lift _) => apply respects_lift; apply _
  | |- respects _ (cache_item _) => apply cache_item_respects; apply _
  | |- respects _ (field _ _) => apply field_respects; apply _
  | |- respects _ (for_each _ _) => apply respects_for_each; [apply _ | intros ?]
  | |- respects _ (match ?x with _ => _ end) => destruct x
  | |- respects _ (let _ := _ in _) => cbv zeta
  end.

Ltac frame := repeat frame_step; eauto.

Lemma stderr_quiet msg sil : respects quiet (stderr msg sil).
Proof. intros s. unfold stderr. destruct sil; simpl; by repeat split. Qed.

Lemma prettyprint_quiet datastr : respects quiet (prettyprint datastr).
Proof. unfold prettyprint. frame. apply stderr_quiet. Qed.

Lemma show_quiet : respects quiet show.
Proof. unfold show. frame. apply prettyprint_quiet. Qed.

Lemma validate_quiet a q b : respects quiet (validate a q b).
Proof. unfold validate. frame; apply stderr_quiet. Qed.

Lemma _load_response_quiet a : respects quiet (_load_response a).
Proof. unfold _load_response. frame. apply validate_quiet. Qed.

Lemma _set_data_same_store a : respects same_store (_set_data a).
Proof.
  unfold _set_data. frame.
  - eapply respects_weaken; [apply quiet_same_store | apply _load_response_quiet].
  - intros s. by repeat split.
Qed.

Lemma store_off a f : respects (off a) (store a f).
Proof.
  unfold store. frame.
  intros s. unfold off. cbn. fields. split; [done|]. split; [|split].
  - intros b Hb. by rewrite lookup_insert_ne.
  - intros _. rewrite lookup_insert_eq. eauto.
  - by exists [].
Qed.

Lemma transport_off a proxy timeout qstr status :
  respects (off a) (transport a proxy timeout qstr status).
Proof.
  intros s. unfold transport. destruct (request_get _ _ _ _ _ _ _) as [r w]. simpl.
  split; [done|]. split; [done|]. split; [done|].
  eexists [_]. split; [done|]. by constructor.
Qed.

Lemma _get_request_off a qstr qobj sh proxy timeout :
  respects (off a) (_get_request a qstr qobj sh proxy timeout).
Proof.
  unfold _get_request. frame.
  - apply transport_off.
  - apply store_off.
  - apply store_off.
  - eapply respects_weaken; [apply same_store_off | apply _set_data_same_store].
  - eapply respects_weaken; [intros ???; by apply same_store_off, quiet_same_store | apply show_quiet].
Qed.

Lemma stderr_off a msg sil : respects (off a) (stderr msg sil).
Proof.
  eapply respects_weaken; [|apply stderr_quiet].
  intros ???. by apply same_store_off, quiet_same_store.
Qed.

Lemma placeholder_off a : respects (off a) (modify (set_cache (<[a := empty_record]>))).
Proof.
  intros s. unfold off. cbn. fields. split; [done|]. split; [|split].
  - intros b Hb. by rewrite lookup_insert_ne.
  - intros _. rewrite lookup_insert_eq. eauto.
  - by exists [].
Qed.

Lemma _get_off a sh proxy timeout : respects (off a) (_get a sh proxy timeout).
Proof.
  unfold _get. frame;
    first [apply stderr_off | apply placeholder_off | apply store_off | apply _get_request_off].
Qed.

End Frames.

(** * The validator *)

Section Validator.
Context `{C : Collaborators}.

Lemma _load_response_eval a s r q b :
  cache s !! a = Some r -> rec_query r = Some q -> rec_response r = Some b ->
  _load_response a s = validate a (Text.replace "&format=json" EmptyString q) b s.
Proof.
  intros Hc Hq Hb. unfold _load_response, cache_item, field. mrun.
  repeat (first [rewrite Hc | rewrite Hq | rewrite Hb]; mrun). reflexivity.
Qed.

(** C4: whatever the action, a stored response that is [None] or the
    empty text makes the validator raise the empty-response
    [ValueError], whose message is made of the session's params; no
    other check is made first: the decoder is not consulted and no
    diagnostic is written. *)
Theorem empty_response_rejected a s r q b :
  cache s !! a = Some r -> rec_query r = Some q -> rec_response r = Some b ->
  body_truthy b = false ->
  _load_response a s = (inl (ValueError (EmptyResponseOf (params s))), s).
Proof.
  intros Hc Hq Hb He. rewrite (_load_response_eval a s r q b) by done.
  unfold validate. by rewrite He.
Qed.

(** C8: for the action wikidata, a payload that parses to a mapping
    without an error field and without an entities field makes the
    validator raise a [TypeError], from the membership test on [None]:
    a failure outside the classified ones. *)
Theorem wikidata_without_entities s r q b d :
  cache s !! "wikidata" = Some r -> rec_query r = Some q ->
  rec_response r = Some b -> body_truthy b = true ->
  json_loads b = inr (PyDict d) ->
  assoc_get "error" d = None -> assoc_get "entities" d = None ->
  (_load_response "wikidata" s).1 = inl TypeError /\ classified TypeError = false.
Proof.
  intros Hc Hq Hb Ht Hj He Hn. split; [|done].
  rewrite (_load_response_eval _ s r q b) by done.
  unfold validate. rewrite Ht, Hj. cbn [negb]. mrun.
  cbn [py_get]. rewrite He, Hn. cbn [default truthy].
  destruct (truthy (default PyNone (assoc_get "warnings" d))); reflexivity.
Qed.

(** C2 (amended): for an action whose name contains query, a payload that
    parses to a mapping without an error field, in which the first
    element of the pages sequence of the query mapping is a mapping
    with a true value for missing, makes the validator raise the
    [LookupError] of a page that is not found, with the query string
    without its format marker. *)
Theorem missing_page_not_found a s r q b d qd pd rest v :
  Text.contains "query" a = true ->
  cache s !! a = Some r -> rec_query r = Some q ->
  rec_response r = Some b -> body_truthy b = true ->
  json_loads b = inr (PyDict d) ->
  assoc_get "error" d = None ->
  assoc_get "query" d = Some (PyDict qd) ->
  assoc_get "pages" qd = Some (PyList (PyDict pd :: rest)) ->
  assoc_get "missing" pd = Some v -> truthy v = true ->
  (_load_response a s).1
  = inl (LookupError (Msg (Text.replace "&format=json" EmptyString q))).
Proof.
  intros Ha Hc Hq Hb Ht Hj He Hqd Hp Hm Hv.
  assert (truthy (PyDict qd) = true) as Hqt.
  { destruct qd; [discriminate|done]. }
  rewrite (_load_response_eval _ s r q b) by done.
  unfold validate. rewrite Ht, Hj, Ha. cbn [negb]. mrun.
  cbn [py_get py_item]. rewrite He, Hqd. cbn [default from_option id].
  rewrite Hqt. mrun. cbn [py_get py_item]. rewrite Hp.
  cbn [default from_option id py_first py_get]. rewrite Hm.
  cbn [default from_option id]. rewrite Hv.
  assert (truthy (PyList (PyDict pd :: rest)) = true) as -> by done.
  destruct (truthy (default PyNone (assoc_get "warnings" d))); reflexivity.
Qed.

End Validator.

Lemma empty_response_rejected_witness :
  _load_response (C := Canned.collaborators) "parse"
    (Canned.holding "parse" (mkRecord (Some "https://en.wikipedia.org/w/api.php?action=parse&format=json") (Some NoBody) None))
  = (inl (ValueError (EmptyResponseOf (mkParams "en" (Some "Douglas Adams") None None None))),
     Canned.holding "parse" (mkRecord (Some "https://en.wikipedia.org/w/api.php?action=parse&format=json") (Some NoBody) None)).
Proof.
  apply (empty_response_rejected (C := Canned.collaborators) "parse"
           (Canned.holding "parse" (mkRecord (Some "https://en.wikipedia.org/w/api.php?action=parse&format=json") (Some NoBody) None))
           (mkRecord (Some "https://en.wikipedia.org/w/api.php?action=parse&format=json") (Some NoBody) None)
           "https://en.wikipedia.org/w/api.php?action=parse&format=json" NoBody);
    vm_compute; reflexivity.
Defined.

Lemma wikidata_without_entities_witness :
  (_load_response (C := Canned.collaborators) "wikidata"
     (Canned.holding "wikidata"
        (mkRecord (Some "https://www.wikidata.org/w/api.php?action=wbgetentities&format=json")
           (Some (Body (Json.text "{'success':1}"))) (Some RestPage.info)))).1
  = inl TypeError /\ classified TypeError = false.
Proof.
  apply (wikidata_without_entities (C := Canned.collaborators) _
           (mkRecord (Some "https://www.wikidata.org/w/api.php?action=wbgetentities&format=json")
              (Some (Body (Json.text "{'success':1}"))) (Some RestPage.info))
           "https://www.wikidata.org/w/api.php?action=wbgetentities&format=json"
           (Body (Json.text "{'success':1}")) [("success", PyInt 1)]);
    vm_compute; reflexivity.
Defined.

Lemma missing_page_not_found_witness :
  (_load_response (C := Canned.collaborators) "query"
     (Canned.holding "query"
        (mkRecord (Some "https://en.wikipedia.org/w/api.php?action=query&format=json")
           (Some (Body (Json.text "{'query':{'pages':[{'missing':true}]}}")))
           (Some RestPage.info)))).1
  = inl (LookupError (Msg "https://en.wikipedia.org/w/api.php?action=query")).
Proof.
  apply (missing_page_not_found (C := Canned.collaborators) "query" _
           (mkRecord (Some "https://en.wikipedia.org/w/api.php?action=query&format=json")
              (Some (Body (Json.text "{'query':{'pages':[{'missing':true}]}}")))
              (Some RestPage.info))
           "https://en.wikipedia.org/w/api.php?action=query&format=json"
           (Body (Json.text "{'query':{'pages':[{'missing':true}]}}"))
           [("query", PyDict [("pages", PyList [PyDict [("missing", PyBool true)]])])]
           [("pages", PyList [PyDict [("missing", PyBool true)]])]
           [("missing", PyBool true)] [] (PyBool true));
    vm_compute; reflexivity.
Defined.

(** The payload of the same shape whose missing field holds the empty
    text passes the validator: the action contains query, the payload
    parses, its first page has the field, and the payload is returned. *)
Lemma missing_empty_text_accepted :
  let payload := Body (Json.text "{'query':{'pages':[{'missing':''}]}}") in
  let data := PyDict [("query", PyDict [("pages", PyList [PyDict [("missing", PyStr EmptyString)]])])] in
  let s := Canned.holding "query"
             (mkRecord (Some "https://en.wikipedia.org/w/api.php?action=query&format=json")
                (Some payload) (Some RestPage.info)) in
  Text.contains "query" "query" = true /\
  json_loads (Collaborators := Canned.collaborators) payload = inr data /\
  (_load_response (C := Canned.collaborators) "query" s).1 = inr data.
Proof. vm_compute. auto. Qed.


(** * The orchestrator *)

Section Orchestrator.
Context `{C : Collaborators}.

Lemma _get_hit a sh proxy timeout s :
  is_Some (cache s !! a) -> a <> "imageinfo" ->
  _get a sh proxy timeout s
  = stderr ("+ " +:+ a +:+ " results in cache") (silent (flags s)) s.
Proof.
  intros Hc Ha. unfold _get. mrun.
  rewrite bool_decide_true by done.
  apply String.eqb_neq in Ha. rewrite Ha. reflexivity.
Qed.

Lemma miss_test a s :
  cache s !! a = None \/ a = "imageinfo" ->
  bool_decide (is_Some (cache s !! a)) && negb (String.eqb a "imageinfo") = false.
Proof.
  intros [Hm| ->]; [|by rewrite andb_false_r].
  rewrite bool_decide_false; [done|]. rewrite Hm. by intros [??].
Qed.

Lemma entered_quiet_but_cache a s :
  data (entered a s) = data s /\ flags (entered a s) = flags s /\
  params (entered a s) = params s /\ err (entered a s) = err s /\
  world (entered a s) = world s /\ requests (entered a s) = requests s.
Proof. unfold entered. by destruct (bool_decide _). Qed.

Lemma entered_lookup a s :
  cache (entered a s) !! a = Some (default empty_record (cache s !! a)).
Proof.
  unfold entered. case_bool_decide as Hc.
  - by destruct Hc as [r ->].
  - cbn. fields. rewrite lookup_insert_eq.
    destruct (cache s !! a) eqn:E; [|done]. destruct Hc. eauto.
Qed.

Lemma _get_skipped a sh proxy timeout s :
  cache s !! a = None \/ a = "imageinfo" ->
  in_skip (flags s) a = true ->
  _get a sh proxy timeout s
  = (if negb (silent (flags s)) then stderr ("+ skipping " +:+ a) false
     else mret tt) (entered a s).
Proof.
  intros Hm Hs. unfold _get, entered. mrun. rewrite miss_test by done.
  destruct (bool_decide (is_Some (cache s !! a))); mrun; cbn; fields;
    by rewrite Hs.
Qed.

Lemma _get_unbuilt a sh proxy timeout s e :
  cache s !! a = None \/ a = "imageinfo" ->
  in_skip (flags s) a = false ->
  _query a (query_new (lang (params s)) (wiki (params s)) (variant (params s)))
    (params s) (data s) = inl e ->
  _get a sh proxy timeout s = (inl e, entered a s).
Proof.
  intros Hm Hs Hq. unfold _get, entered. mrun. rewrite miss_test by done.
  destruct (bool_decide (is_Some (cache s !! a))); mrun; cbn; fields;
    rewrite Hs; mrun; fields; by rewrite Hq.
Qed.

Lemma _get_built a sh proxy timeout s qstr qobj :
  cache s !! a = None \/ a = "imageinfo" ->
  in_skip (flags s) a = false ->
  _query a (query_new (lang (params s)) (wiki (params s)) (variant (params s)))
    (params s) (data s) = inr (qstr, qobj) ->
  _get a sh proxy timeout s
  = _get_request a qstr qobj sh proxy timeout (queried a qstr s).
Proof.
  intros Hm Hs Hq. unfold _get, queried, store, cache_item. mrun.
  rewrite miss_test by done.
  case_bool_decide as Hc; mrun; cbn; fields; rewrite Hs; mrun; fields; rewrite Hq; mrun; cbn; fields.
  - destruct Hc as [r Hr]. rewrite Hr. reflexivity.
  - rewrite lookup_insert_eq. mrun. cbn. rewrite insert_insert_eq.
    destruct (cache s !! a) eqn:E; [|done]. destruct Hc. eauto.
Qed.

Lemma queried_lookup a qstr s :
  cache (queried a qstr s) !! a
  = Some (set_query qstr (default empty_record (cache s !! a))).
Proof. unfold queried. cbn. fields. apply lookup_insert_eq. Qed.

(** What [_get] does once the request object is made: one invocation of
    the transport, and on its return the two writes to the record, the
    capture of the data and the optional display. *)
Lemma _get_request_eval a qstr qobj sh proxy timeout s r0 :
  cache s !! a = Some r0 ->
  _get_request a qstr qobj sh proxy timeout s
  = let res := request_get (silent (flags s)) (verbose (flags s)) proxy timeout
                 qstr (query_status qobj) (world s) in
    let s1 := set_world res.2 (mkRequest a qstr (query_status qobj) res.1) s in
    match res.1 with
    | inl e => (inl e, s1)
    | inr (b, i) =>
        (_set_data a;; if sh then show else mret tt)
          (set_cache (<[a := set_info i (set_response b r0)]>) s1)
    end.
Proof.
  intros Hc. unfold _get_request, transport, store, cache_item. mrun.
  destruct (request_get _ _ _ _ _ _ _) as [[e|[b i]] w]; cbn; fields; [done|].
  rewrite Hc. mrun. cbn. fields. rewrite lookup_insert_eq. mrun. cbn. fields.
  by rewrite insert_insert_eq.
Qed.

Lemma tail_same_store a (sh : bool) :
  respects same_store (_set_data a;; if sh then show else mret tt).
Proof.
  apply respects_bind; [apply _ | apply _set_data_same_store |].
  intros _. destruct sh; [|apply respects_ret; apply _].
  eapply respects_weaken; [apply quiet_same_store | apply show_quiet].
Qed.

(** Whatever its outcome, a call of [_get] leaves the action cached. *)
Lemma _get_cached a sh proxy timeout s :
  is_Some (cache (_get a sh proxy timeout s).2 !! a).
Proof.
  destruct (decide (is_Some (cache s !! a) /\ a <> "imageinfo")) as [[Hc Ha]|Hm].
  - rewrite _get_hit by done.
    destruct (stderr_quiet ("+ " +:+ a +:+ " results in cache") (silent (flags s)) s)
      as (-> & _). done.
  - assert (cache s !! a = None \/ a = "imageinfo") as Hm'.
    { destruct (cache s !! a) eqn:E; [|by left].
      right. destruct (decide (a = "imageinfo")); [done|]. destruct Hm. eauto. }
    assert (is_Some (cache (entered a s) !! a)) as He.
    { rewrite entered_lookup. eauto. }
    destruct (in_skip (flags s) a) eqn:Hs.
    + rewrite _get_skipped by done.
      destruct (negb (silent (flags s))); [|done].
      destruct (stderr_quiet ("+ skipping " +:+ a) false (entered a s)) as (-> & _). done.
    + destruct (_query a (query_new (lang (params s)) (wiki (params s)) (variant (params s)))
                  (params s) (data s)) as [e|[qstr qobj]] eqn:Hq.
      * by rewrite (_get_unbuilt _ _ _ _ _ e).
      * rewrite (_get_built _ _ _ _ _ qstr qobj) by done.
        destruct (_get_request_off a qstr qobj sh proxy timeout (queried a qstr s))
          as (_ & _ & Hk & _).
        apply Hk. rewrite queried_lookup. eauto.
Qed.

(** A call of [_get] either leaves the transport alone, or is a fetch:
    the action was not cached (or is imageinfo) and is not skipped, the
    query string was built, and the call continues from the session in
    which that string is recorded. *)
Lemma _get_cases a sh proxy timeout s :
  requests (_get a sh proxy timeout s).2 = requests s \/
  exists qstr qobj,
    (cache s !! a = None \/ a = "imageinfo") /\
    in_skip (flags s) a = false /\
    _query a (query_new (lang (params s)) (wiki (params s)) (variant (params s)))
      (params s) (data s) = inr (qstr, qobj) /\
    _get a sh proxy timeout s
    = _get_request a qstr qobj sh proxy timeout (queried a qstr s).
Proof.
  destruct (decide (is_Some (cache s !! a) /\ a <> "imageinfo")) as [[Hc Ha]|Hm].
  - left. rewrite _get_hit by done.
    by destruct (stderr_quiet ("+ " +:+ a +:+ " results in cache") (silent (flags s)) s)
      as (_&_&_&_&_&->).
  - assert (cache s !! a = None \/ a = "imageinfo") as Hm'.
    { destruct (cache s !! a) eqn:E; [|by left].
      right. destruct (decide (a = "imageinfo")); [done|]. destruct Hm. eauto. }
    destruct (entered_quiet_but_cache a s) as (_&_&_&_&_&Hr).
    destruct (in_skip (flags s) a) eqn:Hs.
    + left. rewrite _get_skipped by done.
      destruct (negb (silent (flags s))); [|done].
      by destruct (stderr_quiet ("+ skipping " +:+ a) false (entered a s))
        as (_&_&_&_&_&->).
    + destruct (_query a (query_new (lang (params s)) (wiki (params s)) (variant (params s)))
                  (params s) (data s)) as [e|[qstr qobj]] eqn:Hq.
      * left. by rewrite (_get_unbuilt _ _ _ _ _ e).
      * right. exists qstr, qobj. repeat split; [done..|].
        by apply _get_built.
Qed.

Lemma yields_bind {A B} (P : B -> Prop) (m : M A) (k : A -> M B) :
  (forall x, yields P (k x)) -> yields P (m ≫= k).
Proof.
  intros Hk s v s'. unfold mbind, M_bind.
  destruct (m s) as [[e|x] s1]; [done|]. apply Hk.
Qed.

Lemma yields_raise {A} (P : A -> Prop) e : yields P (raise e).
Proof. by intros s v s'. Qed.

Lemma yields_ret {A} (P : A -> Prop) x : P x -> yields P (mret x).
Proof. intros HP s v s' [= <- _]. done. Qed.

(** What the validator returns is the payload that the decoder read. *)
Lemma validate_yields a q b : yields (fun v => json_loads b = inr v) (validate a q b).
Proof.
  unfold validate. destruct (negb (body_truthy b)).
  { apply yields_bind. intros p. apply yields_raise. }
  destruct (json_loads b) as [[]|data]; try apply yields_raise.
  repeat (apply yields_bind; intros ?).
  repeat match goal with
         | |- yields _ (if ?c then _ else _) => destruct c
         | |- yields _ (raise _) => apply yields_raise
         | |- yields _ (mbind _ _) => apply yields_bind; intros ?
         | |- yields _ (mret _) => by apply yields_ret
         end.
Qed.

Lemma _set_data_validated a s s' r q b :
  cache s !! a = Some r -> rec_query r = Some q -> rec_response r = Some b ->
  _set_data a s = (inr tt, s') -> exists v, json_loads b = inr v.
Proof.
  intros Hc Hq Hb. unfold _set_data. mrun.
  rewrite (_load_response_eval a s r q b) by done.
  destruct (validate _ _ _ s) as [[e|v] s1] eqn:E; [done|].
  intros _. exists v. by apply (validate_yields _ _ _ _ _ _ E).
Qed.

(** The session after a fetch: one more invocation of the transport,
    made with the query string that was built, and the record of the
    action still carries that string. *)
Lemma _get_request_after a qstr qobj sh proxy timeout s r0 q :
  cache s !! a = Some r0 -> rec_query r0 = Some q ->
  let out := _get_request a qstr qobj sh proxy timeout s in
  let res := request_get (silent (flags s)) (verbose (flags s)) proxy timeout
               qstr (query_status qobj) (world s) in
  requests out.2 = mkRequest a qstr (query_status qobj) res.1 :: requests s /\
  match res.1 with
  | inl e => out.1 = inl e /\ cache out.2 = cache s
  | inr (b, i) =>
      cache out.2 = <[a := set_info i (set_response b r0)]> (cache s) /\
      (out.1 = inr tt -> exists v, json_loads b = inr v)
  end.
Proof.
  intros Hc Hq out res. subst out. rewrite (_get_request_eval _ _ _ _ _ _ _ _ Hc).
  fold res. cbv zeta. destruct res.1 as [e|[b i]] eqn:E; [done|].
  match goal with |- context [(_ ;; _) ?s0] =>
    pose proof (tail_same_store a sh s0) as (Hcache&_&_&Hreq); set (s2 := s0) in * end.
  rewrite Hreq, Hcache. split; [done|]. split; [done|].
  unfold mbind, M_bind. destruct (_set_data a s2) as [[e|[]] s3] eqn:E2; [done|].
  intros _. apply (_set_data_validated a s2 s3 (set_info i (set_response b r0)) q b) in E2;
    [done| |done..].
  subst s2. cbn. fields. apply lookup_insert_eq.
Qed.

Lemma cons_neq {A} (x : A) (l : list A) : l <> x :: l.
Proof. intros E. apply (f_equal length) in E. simpl in E. lia. Qed.

Lemma invocations_same a s s' : requests s' = requests s -> invocations a s' = invocations a s.
Proof. unfold invocations. by intros ->. Qed.

Lemma invocations_cons a s s' r :
  requests s' = r :: requests s ->
  invocations a s' = ((if decide (rq_action r = a) then 1 else 0) + invocations a s)%nat.
Proof.
  unfold invocations. intros ->. rewrite filter_cons. by case_decide.
Qed.

(** C1: for an action other than imageinfo, a second call of [_get]
    right after a first one, whatever the arguments and the outcome of
    the first, returns without touching the session but for the
    diagnostic line: the cache (with the data, the params, the world and
    the trace of the transport) is as the first call left it, and over
    the two calls the transport was invoked at most once for the
    action. *)
Theorem second_fetch_is_noop a sh1 p1 t1 sh2 p2 t2 s :
  a <> "imageinfo" ->
  let s1 := (_get a sh1 p1 t1 s).2 in
  let out := _get a sh2 p2 t2 s1 in
  out.1 = inr tt /\ cache out.2 = cache s1 /\ quiet s1 out.2 /\
  (invocations a out.2 <= invocations a s + 1)%nat.
Proof.
  intros Ha s1 out.
  assert (out = stderr ("+ " +:+ a +:+ " results in cache") (silent (flags s1)) s1) as ->.
  { apply _get_hit; [apply _get_cached | done]. }
  pose proof (stderr_quiet ("+ " +:+ a +:+ " results in cache") (silent (flags s1)) s1) as Hq.
  split; [by unfold stderr; destruct (silent _)|].
  split; [apply Hq|]. split; [done|].
  rewrite (invocations_same a s1) by apply Hq.
  destruct (_get_cases a sh1 p1 t1 s) as [Hr|(qstr&qobj&_&_&_&Hg)].
  - fold s1 in Hr. rewrite (invocations_same a s) by done. lia.
  - subst s1. rewrite Hg.
    destruct (_get_request_after a qstr qobj sh1 p1 t1 (queried a qstr s) _ qstr
                (queried_lookup a qstr s) eq_refl) as [Hr _].
    rewrite (invocations_cons a (queried a qstr s) _ _ Hr).
    rewrite (invocations_same a s (queried a qstr s)) by done.
    case_decide; lia.
Qed.

(** C5: in a call of [_get] that reaches the fetch (the action is not
    cached, or is imageinfo, and is not skipped) and in which the
    builder returned a query string, that string is on the record of
    the action when the request is made: the rest of the call, which
    opens with the invocation of the transport, runs from a session
    that has the string recorded and has not yet called the transport.
    When the call is over, however it ended, the transport has been
    invoked once with that string and the record still holds it. *)
Theorem query_recorded_before_transport a sh proxy timeout s qstr qobj :
  cache s !! a = None \/ a = "imageinfo" ->
  in_skip (flags s) a = false ->
  _query a (query_new (lang (params s)) (wiki (params s)) (variant (params s)))
    (params s) (data s) = inr (qstr, qobj) ->
  let s1 := queried a qstr s in
  let out := _get a sh proxy timeout s in
  out = _get_request a qstr qobj sh proxy timeout s1 /\
  rec_query <$> cache s1 !! a = Some (Some qstr) /\
  requests s1 = requests s /\ world s1 = world s /\
  (exists rq, requests out.2 = rq :: requests s /\ rq_action rq = a /\ rq_query rq = qstr) /\
  rec_query <$> cache out.2 !! a = Some (Some qstr).
Proof.
  intros Hm Hs Hq s1 out.
  assert (out = _get_request a qstr qobj sh proxy timeout s1) as Hout
    by by apply _get_built.
  split; [done|]. rewrite Hout.
  pose proof (queried_lookup a qstr s) as Hl. fold s1 in Hl.
  split; [by rewrite Hl|]. split; [done|]. split; [done|].
  destruct (_get_request_after a qstr qobj sh proxy timeout s1 _ qstr Hl eq_refl)
    as [Hr Hc].
  split; [by eexists|].
  destruct (request_get _ _ _ _ _ _ _).1 as [e|[b i]].
  - destruct Hc as [_ ->]. by rewrite Hl.
  - destruct Hc as [-> _]. by rewrite lookup_insert_eq.
Qed.

(** C6: when a call of [_get] has invoked the transport and returned
    without raising, the transport had returned a response, that
    response parses, and the inspector [response] of the action returns
    the value that the decoder reads from that very response. *)
Theorem response_round_trip a sh proxy timeout s s' rq :
  _get a sh proxy timeout s = (inr tt, s') ->
  requests s' = rq :: requests s ->
  exists b i v,
    rq_result rq = inr (b, i) /\ json_loads b = inr v /\
    response (Some a) s' = (inr (Found v), s').
Proof.
  intros Hg Hr.
  destruct (_get_cases a sh proxy timeout s) as [Hs|(qstr&qobj&_&_&_&Hb)].
  { rewrite Hg in Hs. simpl in Hs. rewrite Hs in Hr. by apply cons_neq in Hr. }
  destruct (_get_request_after a qstr qobj sh proxy timeout (queried a qstr s) _ qstr
              (queried_lookup a qstr s) eq_refl) as [Hr' Hc].
  rewrite <- Hb, Hg in Hr', Hc. cbn [fst snd] in Hr', Hc.
  assert (requests (queried a qstr s) = requests s) as Hrs by done.
  rewrite Hrs, Hr in Hr'. injection Hr' as ->. cbn [rq_result].
  destruct (request_get _ _ _ _ _ _ _).1 as [e|[b i]]; [by destruct Hc|].
  destruct Hc as [Hc [v Hv]]; [done|].
  exists b, i, v. split; [done|]. split; [done|].
  unfold response, cached. mrun. cbn [mbind option_bind].
  rewrite Hc, lookup_insert_eq. cbn. by rewrite Hv.
Qed.

(** ** Skipped actions *)

Lemma in_skip_init args kwargs w a :
  a ∈ kw_skip kwargs -> in_skip (flags (__init__ args kwargs w)) a = true.
Proof.
  intros Ha. unfold __init__, in_skip. cbn. fields.
  destruct (kw_skip kwargs) as [|x sk] eqn:E; [by apply not_elem_of_nil in Ha|].
  cbn. by rewrite bool_decide_true.
Qed.

Lemma filter_other_action a b (new : list Request) :
  b <> a -> Forall (fun r => rq_action r = b) new ->
  filter (fun r => rq_action r = a) new = [].
Proof.
  intros Hne Hn. induction Hn as [|r new Hb _ IH]; [done|].
  rewrite filter_cons. case_decide; [congruence|done].
Qed.

(** What a call of [_get], for any action, keeps of a skipped action:
    no invocation of the transport is made for it, and its record, if
    there is one, stays the empty placeholder. *)
Lemma fetch_keeps_skipped a f s :
  in_skip (flags s) a = true ->
  let s' := (fetch f s).2 in
  flags s' = flags s /\ invocations a s' = invocations a s /\
  (cache s !! a = None -> cache s' !! a = None \/ cache s' !! a = Some empty_record) /\
  (cache s !! a = Some empty_record -> cache s' !! a = Some empty_record).
Proof.
  intros Hs s'. subst s'. unfold fetch.
  destruct f as [b sh proxy timeout]. cbn [f_action f_show f_proxy f_timeout].
  destruct (_get_off b sh proxy timeout s) as (Hf & Ho & _ & new & Hr & Hn).
  split; [done|].
  destruct (decide (b = a)) as [->|Hne].
  - destruct (_get_cases a sh proxy timeout s) as [Hsame|(?&?&_&Hns&_)];
      [|congruence].
    split; [by apply invocations_same|].
    destruct (decide (is_Some (cache s !! a) /\ a <> "imageinfo")) as [[Hc Ha]|Hm].
    + rewrite _get_hit by done.
      destruct (stderr_quiet ("+ " +:+ a +:+ " results in cache") (silent (flags s)) s)
        as (-> & _).
      split; [by left|done].
    + assert (cache s !! a = None \/ a = "imageinfo") as Hm'.
      { destruct (cache s !! a) eqn:E; [|by left].
        right. destruct (decide (a = "imageinfo")); [done|]. destruct Hm. eauto. }
      rewrite _get_skipped by done.
      assert (cache ((if negb (silent (flags s))
                      then stderr ("+ skipping " +:+ a) false else mret tt)
                       (entered a s)).2 = cache (entered a s)) as ->.
      { destruct (negb (silent (flags s))); [|done].
        by destruct (stderr_quiet ("+ skipping " +:+ a) false (entered a s)) as (-> & _). }
      rewrite entered_lookup. split; intros ->; auto.
  - rewrite Ho by done. split; [|by split; auto].
    unfold invocations. rewrite Hr, filter_app, length_app.
    by rewrite (filter_other_action a b new).
Qed.

Lemma run_keeps_skipped a fs s :
  in_skip (flags s) a = true ->
  let s' := run fs s in
  flags s' = flags s /\ invocations a s' = invocations a s /\
  (cache s !! a = None -> cache s' !! a = None \/ cache s' !! a = Some empty_record) /\
  (cache s !! a = Some empty_record -> cache s' !! a = Some empty_record).
Proof.
  revert s. induction fs as [|f fs IH]; intros s Hs; cbn.
  - repeat split; auto.
  - destruct (fetch_keeps_skipped a f s Hs) as (Hf & Hi & Hn & He).
    destruct (IH (fetch f s).2) as (Hf' & Hi' & Hn' & He'); [by rewrite Hf|].
    unfold run in *. split; [by etrans|]. split; [by etrans|]. split.
    + intros Hc. destruct (Hn Hc) as [?|?]; auto.
    + auto.
Qed.

(** C3: in a session made with the action in its skip list, after any
    sequence of calls of [_get] (for any actions, returning or
    raising) the transport has not been invoked for the action, and
    the record of the action, if there is one, is the empty
    placeholder: it holds no response. *)
Theorem skipped_never_fetched args kwargs w a fs :
  a ∈ kw_skip kwargs ->
  let s := run fs (__init__ args kwargs w) in
  invocations a s = 0%nat /\
  (forall r, cache s !! a = Some r -> r = empty_record) /\
  ~ (exists r b, cache s !! a = Some r /\ rec_response r = Some b /\ body_truthy b = true).
Proof.
  intros Ha s.
  destruct (run_keeps_skipped a fs (__init__ args kwargs w) (in_skip_init _ _ _ _ Ha))
    as (_ & Hi & Hn & _).
  fold s in Hi, Hn.
  assert (forall r, cache s !! a = Some r -> r = empty_record) as Hr.
  { intros r Hc. destruct Hn as [Hn|Hn]; [done|congruence..]. }
  split; [by rewrite Hi|]. split; [done|].
  intros (r & b & Hc & Hb & _). by rewrite (Hr r Hc) in Hb.
Qed.

(** C9: a call of [_get] for an action that is in the skip list and
    not cached returns normally, without an invocation of the
    transport, and leaves an empty record for the action; from then on,
    after any further calls of [_get], each of the three inspectors
    raises a [KeyError] for that action. *)
Theorem skipped_placeholder_raises a sh proxy timeout s fs :
  cache s !! a = None -> in_skip (flags s) a = true ->
  let out := _get a sh proxy timeout s in
  out.1 = inr tt /\ cache out.2 !! a = Some empty_record /\
  requests out.2 = requests s /\
  let s' := run fs out.2 in
  (info (Some a) s').1 = inl (KeyError (PyStr "info")) /\
  (query (Some a) s').1 = inl (KeyError (PyStr "query")) /\
  (response (Some a) s').1 = inl (KeyError (PyStr "response")).
Proof.
  intros Hc Hs out.
  assert (out.1 = inr tt /\ cache out.2 !! a = Some empty_record /\
          requests out.2 = requests s /\ flags out.2 = flags s) as (H1 & H2 & H3 & H4).
  { subst out. rewrite _get_skipped by auto.
    pose proof (entered_lookup a s) as He. rewrite Hc in He.
    destruct (entered_quiet_but_cache a s) as (_&Hf&_&_&_&Hr).
    destruct (negb (silent (flags s))); [|done].
    destruct (stderr_quiet ("+ skipping " +:+ a) false (entered a s))
      as (-> & _ & -> & _ & _ & ->). done. }
  split; [done|]. split; [done|]. split; [done|]. intros s'.
  destruct (run_keeps_skipped a fs out.2) as (_ & _ & _ & He); [by rewrite H4|].
  specialize (He H2). fold s' in He.
  unfold info, query, response, cached. mrun. cbn [mbind option_bind].
  by rewrite He.
Qed.

(** ** The inspectors *)

(** C10: for an action that is not cached, each inspector returns what
    it returns when called without an action: the names of the cached
    actions, or [None] when the cache is empty; it does not raise. *)
Theorem unknown_action_lists_cache a s :
  cache s !! a = None ->
  let names : forall A, result (answer A) * Session := fun A =>
    (inr (if bool_decide (dom (cache s) = ∅) then NoResult
          else Actions (dom (cache s))), s) in
  (info (Some a) s = info None s /\ info None s = names pyval) /\
  (query (Some a) s = query None s /\ query None s = names string) /\
  (response (Some a) s = response None s /\ response None s = names pyval).
Proof.
  intros Hc names. unfold info, query, response, cached. mrun.
  cbn [mbind option_bind]. by rewrite Hc.
Qed.

End Orchestrator.

(** * The formatter *)

Section Formatter.
Context `{C : Collaborators}.

Lemma for_each_stderr (f : string -> string) (l : list string) s :
  for_each l (fun line => stderr (f line) false) s
  = (inr tt, set_err (fun e => (e ++ map f l)%list) s).
Proof.
  revert s. induction l as [|x l IH]; intros s; cbn [for_each map].
  - mrun. cbn. rewrite app_nil_r. by destruct s.
  - unfold mbind, M_bind. cbn [stderr]. unfold modify. rewrite IH. cbn. fields.
    by rewrite <- (assoc_L (++)).
Qed.

Lemma prettyprint_eval datastr s :
  prettyprint datastr s = (inr tt, set_err (fun e => (e ++ map clipped datastr)%list) s).
Proof. unfold prettyprint. cbv zeta. apply (for_each_stderr clipped). Qed.

Lemma substring_length n (s : string) :
  (n <= String.length s)%nat -> String.length (String.substring 0 n s) = n.
Proof.
  revert s. induction n as [|n IH]; intros s Hn.
  - by destruct s.
  - destruct s as [|c s]; cbn in *; [lia|]. rewrite IH; lia.
Qed.

Lemma substring_prefix n (s : string) :
  String.prefix (String.substring 0 n s) s = true.
Proof.
  revert s. induction n as [|n IH]; intros s.
  - by destruct s.
  - destruct s as [|c s]; cbn; [done|].
    destruct (Ascii.ascii_dec c c); [apply IH|done].
Qed.

(** C7 (amended): when the right padding plus two is between zero and
    the maximal width, [prettyprint] writes one line for each line of
    the data, in order: a line as long as the maximal width or longer
    is cut to its first maximal width minus (right padding plus two)
    characters, followed by an ellipsis; a line shorter than the maximal
    width is written as it is. *)
Theorem prettyprint_cuts_at_width datastr s :
  0 <= RPAD + 2 <= MAXWIDTH ->
  exists written,
    prettyprint datastr s = (inr tt, set_err (fun e => (e ++ written)%list) s) /\
    Forall2 (fun line out =>
      (MAXWIDTH <= Text.len line ->
       exists kept, out = kept +:+ "..." /\ String.prefix kept line = true /\
                    Text.len kept = MAXWIDTH - (RPAD + 2)) /\
      (Text.len line < MAXWIDTH -> out = line)) datastr written.
Proof.
  intros Hw. exists (map clipped datastr). split; [apply prettyprint_eval|].
  apply Forall2_fmap_r, Forall_Forall2_diag, Forall_forall. intros line _.
  unfold clipped. split; intros Hl.
  - rewrite (proj2 (Z.geb_le _ _)) by lia. eexists. split; [done|].
    unfold Text.slice_to. rewrite (proj2 (Z.ltb_ge _ _)) by lia.
    split; [apply substring_prefix|].
    unfold Text.len in *. rewrite substring_length; lia.
  - destruct (Z.geb_spec (Text.len line) MAXWIDTH); [lia|done].
Qed.

End Formatter.

(** ** Instances of the statements *)

Lemma prettyprint_cuts_at_width_witness :
  exists written,
    prettyprint (C := Canned.collaborators)
      ["  title: Douglas Adams"; "Douglas Adams was an English author, humourist and screenwriter (1952-)."]
      (Canned.fresh [] [])
    = (inr tt, set_err (C := Canned.collaborators) (fun e => (e ++ written)%list)
                 (Canned.fresh [] [])) /\
    Forall2 (fun line out =>
      (72 <= Text.len line ->
       exists kept, out = kept +:+ "..." /\ String.prefix kept line = true /\
                    Text.len kept = 72 - (4 + 2)) /\
      (Text.len line < 72 -> out = line))
      ["  title: Douglas Adams"; "Douglas Adams was an English author, humourist and screenwriter (1952-)."] written.
Proof.
  apply (prettyprint_cuts_at_width (C := Canned.collaborators)
           ["  title: Douglas Adams"; "Douglas Adams was an English author, humourist and screenwriter (1952-)."]
           (Canned.fresh [] [])).
  cbn. lia.
Defined.

(** A line of exactly the maximal width, 72 characters when the right
    padding is 4, is not longer than the maximal width, and it is cut
    to 66 characters and an ellipsis. *)
Lemma full_width_line_is_cut :
  let line := "Douglas Adams was an English author, humourist and screenwriter (1952-)." in
  let s := Canned.fresh [] [] in
  Text.len line = MAXWIDTH (Collaborators := Canned.collaborators) /\
  err (prettyprint (C := Canned.collaborators) [line] s).2
  = ["Douglas Adams was an English author, humourist and screenwriter (1..."] /\
  err (prettyprint (C := Canned.collaborators) [line] s).2 <> (err s ++ [line])%list.
Proof. vm_compute. repeat split. discriminate. Qed.

Lemma second_fetch_is_noop_witness :
  let s := Canned.fresh [] [Canned.ok "{'query':{'pages':[{'pageid':8091}]}}"] in
  let s1 := (_get (C := Canned.collaborators) "query" false PyNone PyNone s).2 in
  let out := _get (C := Canned.collaborators) "query" true PyNone PyNone s1 in
  out.1 = inr tt /\ cache out.2 = cache s1 /\ quiet s1 out.2 /\
  (invocations "query" out.2 <= invocations "query" s + 1)%nat.
Proof.
  intros s.
  apply (second_fetch_is_noop (C := Canned.collaborators) "query"
           false PyNone PyNone true PyNone PyNone s).
  discriminate.
Defined.

Lemma skipped_never_fetched_witness :
  let s := run (C := Canned.collaborators)
             [mkFetch "query" false PyNone PyNone;
              mkFetch "wikidata" false PyNone PyNone;
              mkFetch "wikidata" true PyNone PyNone]
             (__init__ (C := Canned.collaborators) ["Douglas Adams"]
                (mkKwargs true false None ["wikidata"] None None)
                [Canned.ok "{'query':{'pages':[{'pageid':8091}]}}"]) in
  invocations "wikidata" s = 0%nat /\
  (forall r, cache s !! "wikidata" = Some r -> r = empty_record) /\
  ~ (exists r b, cache s !! "wikidata" = Some r /\ rec_response r = Some b /\
                 body_truthy b = true).
Proof.
  apply (skipped_never_fetched (C := Canned.collaborators) ["Douglas Adams"]
           (mkKwargs true false None ["wikidata"] None None)
           [Canned.ok "{'query':{'pages':[{'pageid':8091}]}}"] "wikidata"
           [mkFetch "query" false PyNone PyNone;
            mkFetch "wikidata" false PyNone PyNone;
            mkFetch "wikidata" true PyNone PyNone]).
  cbn. left.
Defined.

(** The transport fails in this instance: the query string is on the
    record all the same. *)
Lemma query_recorded_before_transport_witness :
  let s := Canned.fresh [] [inl (TransportError "timed out")] in
  let qstr := "https://en.wikipedia.org/w/api.php?action=query&format=json" in
  let qobj := Canned.mkQuery "en" None None (PyStr qstr) in
  let s1 := queried (C := Canned.collaborators) "query" qstr s in
  let out := _get (C := Canned.collaborators) "query" false PyNone PyNone s in
  out = _get_request (C := Canned.collaborators) "query" qstr qobj false PyNone PyNone s1 /\
  rec_query <$> cache s1 !! "query" = Some (Some qstr) /\
  requests s1 = requests s /\ world s1 = world s /\
  (exists rq, requests out.2 = rq :: requests s /\ rq_action rq = "query" /\
              rq_query rq = qstr) /\
  rec_query <$> cache out.2 !! "query" = Some (Some qstr).
Proof.
  intros s qstr qobj.
  apply (query_recorded_before_transport (C := Canned.collaborators) "query"
           false PyNone PyNone s qstr qobj);
    [left|..]; vm_compute; reflexivity.
Defined.

Lemma pair_of_fst {A B} (x : A * B) (a : A) : x.1 = a -> x = (a, x.2).
Proof. intros <-. by destruct x. Qed.

Lemma response_round_trip_witness :
  let s := Canned.fresh [] [inr (Body RestPage.response, RestPage.info)] in
  let s' := (_get (C := Canned.collaborators) "rest" false PyNone PyNone s).2 in
  let rq := mkRequest "rest" RestPage.query (PyStr RestPage.query)
              (inr (Body RestPage.response, RestPage.info)) in
  exists b i v,
    rq_result rq = inr (b, i) /\
    json_loads (Collaborators := Canned.collaborators) b = inr v /\
    response (C := Canned.collaborators) (Some "rest") s' = (inr (Found v), s').
Proof.
  intros s s' rq.
  apply (response_round_trip (C := Canned.collaborators) "rest" false PyNone PyNone
           s s' rq).
  - subst s'. apply pair_of_fst. vm_compute. reflexivity.
  - vm_compute. reflexivity.
Defined.

Lemma skipped_placeholder_raises_witness :
  let s := Canned.fresh ["wikidata"] [Canned.ok "{'query':{'pages':[{'pageid':8091}]}}"] in
  let out := _get (C := Canned.collaborators) "wikidata" false PyNone PyNone s in
  out.1 = inr tt /\ cache out.2 !! "wikidata" = Some empty_record /\
  requests out.2 = requests s /\
  let s' := run (C := Canned.collaborators)
              [mkFetch "wikidata" true PyNone PyNone;
               mkFetch "query" false PyNone PyNone] out.2 in
  (info (Some "wikidata") s').1 = inl (KeyError (PyStr "info")) /\
  (query (Some "wikidata") s').1 = inl (KeyError (PyStr "query")) /\
  (response (Some "wikidata") s').1 = inl (KeyError (PyStr "response")).
Proof.
  intros s.
  apply (skipped_placeholder_raises (C := Canned.collaborators) "wikidata"
           false PyNone PyNone s
           [mkFetch "wikidata" true PyNone PyNone;
            mkFetch "query" false PyNone PyNone]);
    vm_compute; reflexivity.
Defined.

Lemma unknown_action_lists_cache_witness :
  let s := Canned.holding "rest" RestPage.cache in
  let names : forall A, result (answer A) * Session (C := Canned.collaborators) :=
    fun A => (inr (if bool_decide (dom (cache s) = ∅) then NoResult
                   else Actions (dom (cache s))), s) in
  (info (Some "parse") s = info None s /\ info None s = names pyval) /\
  (query (Some "parse") s = query None s /\ query None s = names string) /\
  (response (Some "parse") s = response None s /\ response None s = names pyval).
Proof.
  intros s.
  apply (unknown_action_lists_cache (C := Canned.collaborators) "parse" s).
  vm_compute. reflexivity.
Defined.

(** ** Runs of the fixtures *)

Example replace_format :
  Text.replace "&format=json" EmptyString
    "https://en.wikipedia.org/w/api.php?action=query&format=json&titles=A"
  = "https://en.wikipedia.org/w/api.php?action=query&titles=A".
Proof. reflexivity. Qed.

Example contains_query :
  Text.contains "query" "wikidata" = false /\ Text.contains "query" "querymore" = true.
Proof. split; reflexivity. Qed.

Example slice_negative : Text.slice_to "abcdef" (-2) = "abcd".
Proof. reflexivity. Qed.

(** The fixture of the tests validates, and the inspectors give back
    what the transport returned. *)
Example rest_page_fetch :
  let s := Canned.fresh [] [inr (Body RestPage.response, RestPage.info)] in
  let out := _get (C := Canned.collaborators) "rest" false PyNone PyNone s in
  out.1 = inr tt /\
  cache out.2 !! "rest" = Some RestPage.cache /\
  (info (Some "rest") out.2).1 = inr (Found RestPage.info) /\
  (query (Some "rest") out.2).1 = inr (Found RestPage.query).
Proof. vm_compute. auto. Qed.

Example wikidata_no_entity :
  (_load_response (C := Canned.collaborators) "wikidata"
     (Canned.holding "wikidata"
        (mkRecord (Some "https://www.wikidata.org/w/api.php?action=wbgetentities&format=json")
           (Some (Body (Json.text "{'entities':{'-1':{}}}"))) None))).1
  = inl (LookupError (Msg "https://www.wikidata.org/w/api.php?action=wbgetentities")).
Proof. reflexivity. Qed.

Example parse_without_parse :
  (_load_response (C := Canned.collaborators) "parse"
     (Canned.holding "parse"
        (mkRecord (Some "https://en.wikipedia.org/w/api.php?action=parse&format=json")
           (Some (Body (Json.text "{'noparse':true}"))) None))).1
  = inl (LookupError (Msg "https://en.wikipedia.org/w/api.php?action=parse")).
Proof. reflexivity. Qed.

(** A second fetch of imageinfo goes to the transport again and
    overwrites the record. *)
Example imageinfo_refetched :
  let s := Canned.fresh [] [Canned.ok "{'query':{'pages':[{'pageid':1}]}}";
                            Canned.ok "{'query':{'pages':[{'pageid':2}]}}"] in
  let s1 := (_get (C := Canned.collaborators) "imageinfo" false PyNone PyNone s).2 in
  let s2 := (_get (C := Canned.collaborators) "imageinfo" false PyNone PyNone s1).2 in
  invocations "imageinfo" s2 = 2%nat /\
  (rec_response <$> cache s2 !! "imageinfo")
  = Some (Some (Body (Json.text "{'query':{'pages':[{'pageid':2}]}}"))).
Proof. vm_compute. auto. Qed.

(** * Further properties of the validator *)

Section ValidatorCases.
Context `{C : Collaborators}.

(** The validator on a response that the decoder reads as a mapping
    with no true error value: after the warning check, the three
    detectors. *)
Lemma _load_response_mapping a s r q b d :
  cache s !! a = Some r -> rec_query r = Some q -> rec_response r = Some b ->
  body_truthy b = true -> json_loads b = inr (PyDict d) ->
  truthy (default PyNone (assoc_get "error" d)) = false ->
  _load_response a s
  = (missing ←
       (if Text.contains "query" a then
          query ← lift (py_get (PyDict d) "query");
          if truthy query then
            query ← lift (py_item (PyDict d) "query");
            pages ← lift (py_get query "pages");
            if truthy pages then
              query ← lift (py_item (PyDict d) "query");
              pages ← lift (py_item query "pages");
              page ← lift (py_first pages);
              missing ← lift (py_get page "missing");
              mret (truthy missing)
            else mret false
          else mret false
        else mret false);
     if missing : bool
     then raise (LookupError (Msg (Text.replace "&format=json" EmptyString q)))
     else
       noparse ←
         (if String.eqb a "parse" then
            parse ← lift (py_get (PyDict d) "parse");
            mret (negb (truthy parse))
          else mret false);
       if noparse : bool
       then raise (LookupError (Msg (Text.replace "&format=json" EmptyString q)))
       else
         noentity ←
           (if String.eqb a "wikidata" then
              entities ← lift (py_get (PyDict d) "entities");
              lift (py_contains "-1" entities)
            else mret false);
         if noentity : bool
         then raise (LookupError (Msg (Text.replace "&format=json" EmptyString q)))
         else mret (PyDict d)) (warned d s).
Proof.
  intros Hc Hq Hb Ht Hj He.
  rewrite (_load_response_eval a s r q b) by done.
  unfold validate, warned. rewrite Ht, Hj. cbn [negb]. mrun.
  cbn [py_get]. rewrite He. cbv zeta.
  destruct (truthy (default PyNone (assoc_get "warnings" d))); reflexivity.
Qed.

(** X1: a response that the decoder refuses with a [ValueError] makes
    the validator raise a [ValueError] that carries the query string
    without its format marker; any other exception of the decoder
    comes through as it is.  Neither writes a diagnostic. *)
Theorem malformed_payload_rejected a s r q b e :
  cache s !! a = Some r -> rec_query r = Some q -> rec_response r = Some b ->
  body_truthy b = true -> json_loads b = inl e ->
  _load_response a s
  = (inl (match e with
          | ValueError _ => ValueError (Msg (Text.replace "&format=json" EmptyString q))
          | _ => e
          end), s).
Proof.
  intros Hc Hq Hb Ht Hj. rewrite (_load_response_eval a s r q b) by done.
  unfold validate. rewrite Ht, Hj. by destruct e.
Qed.

(** X2: a response that parses to anything but a mapping (a list, a
    text, a number, a boolean, null) makes the validator raise an
    [AttributeError], whatever the action, before any diagnostic. *)
Theorem non_mapping_payload_raises a s r q b v :
  cache s !! a = Some r -> rec_query r = Some q -> rec_response r = Some b ->
  body_truthy b = true -> json_loads b = inr v ->
  (forall d, v <> PyDict d) ->
  _load_response a s = (inl AttributeError, s) /\ classified AttributeError = false.
Proof.
  intros Hc Hq Hb Ht Hj Hv. split; [|done].
  rewrite (_load_response_eval a s r q b) by done.
  unfold validate. rewrite Ht, Hj. cbn [negb]. mrun.
  destruct v; try reflexivity. by destruct (Hv d).
Qed.

(** X3: a payload with a true error value makes the validator raise a
    [LookupError] with the query string without its format marker,
    whatever the action; the error line is written to the diagnostic
    channel first, after the warning line if there is one, and neither
    line depends on the silent flag. *)
Theorem api_error_reported a s r q b d :
  cache s !! a = Some r -> rec_query r = Some q -> rec_response r = Some b ->
  body_truthy b = true -> json_loads b = inr (PyDict d) ->
  truthy (default PyNone (assoc_get "error" d)) = true ->
  _load_response a s
  = (inl (LookupError (Msg (Text.replace "&format=json" EmptyString q))),
     set_err (fun l => (l ++ ["API error: "
                              +:+ py_str (default PyNone (assoc_get "error" d))])%list)
       (warned d s)).
Proof.
  intros Hc Hq Hb Ht Hj He. rewrite (_load_response_eval a s r q b) by done.
  unfold validate, warned. rewrite Ht, Hj. cbn [negb]. mrun.
  cbn [py_get]. rewrite He. cbv zeta.
  destruct (truthy (default PyNone (assoc_get "warnings" d))); reflexivity.
Qed.

(** X4: for the action parse, a well-formed payload whose parse field
    is absent or false-like makes the validator raise the
    [LookupError] of a page that is not found. *)
Theorem parse_without_parse_not_found s r q b d :
  cache s !! "parse" = Some r -> rec_query r = Some q -> rec_response r = Some b ->
  body_truthy b = true -> json_loads b = inr (PyDict d) ->
  truthy (default PyNone (assoc_get "error" d)) = false ->
  truthy (default PyNone (assoc_get "parse" d)) = false ->
  _load_response "parse" s
  = (inl (LookupError (Msg (Text.replace "&format=json" EmptyString q))), warned d s).
Proof.
  intros Hc Hq Hb Ht Hj He Hp.
  rewrite (_load_response_mapping _ s r q b d) by done.
  mrun. cbn [py_get]. by rewrite Hp.
Qed.

(** X5: for the action wikidata, a well-formed payload whose entities
    mapping has the key -1 makes the validator raise the [LookupError]
    of an entity that is not found. *)
Theorem wikidata_minus_one_not_found s r q b d es :
  cache s !! "wikidata" = Some r -> rec_query r = Some q -> rec_response r = Some b ->
  body_truthy b = true -> json_loads b = inr (PyDict d) ->
  truthy (default PyNone (assoc_get "error" d)) = false ->
  assoc_get "entities" d = Some (PyDict es) -> is_Some (assoc_get "-1" es) ->
  _load_response "wikidata" s
  = (inl (LookupError (Msg (Text.replace "&format=json" EmptyString q))), warned d s).
Proof.
  intros Hc Hq Hb Ht Hj He Hes Hm.
  rewrite (_load_response_mapping _ s r q b d) by done.
  mrun. cbn [py_get py_contains]. rewrite Hes. cbn [default from_option id py_contains].
  by rewrite bool_decide_true.
Qed.

(** X6: for an action whose name does not contain query and is neither
    parse nor wikidata, every payload that parses to a mapping with no
    true error value is valid: the validator returns it, having written
    at most the warning line. *)
Theorem other_action_payload_accepted a s r q b d :
  Text.contains "query" a = false -> a <> "parse" -> a <> "wikidata" ->
  cache s !! a = Some r -> rec_query r = Some q -> rec_response r = Some b ->
  body_truthy b = true -> json_loads b = inr (PyDict d) ->
  truthy (default PyNone (assoc_get "error" d)) = false ->
  _load_response a s = (inr (PyDict d), warned d s).
Proof.
  intros Ha Hp Hw Hc Hq Hb Ht Hj He.
  rewrite (_load_response_mapping _ s r q b d) by done.
  apply String.eqb_neq in Hp, Hw. rewrite Ha, Hp, Hw. reflexivity.
Qed.

(** X7: for an action whose name contains query, a well-formed payload
    in which the first element of the pages sequence is a mapping with
    no true missing value is valid: the validator returns it. *)
Theorem found_page_accepted a s r q b d qd pd rest :
  Text.contains "query" a = true ->
  cache s !! a = Some r -> rec_query r = Some q -> rec_response r = Some b ->
  body_truthy b = true -> json_loads b = inr (PyDict d) ->
  truthy (default PyNone (assoc_get "error" d)) = false ->
  assoc_get "query" d = Some (PyDict qd) ->
  assoc_get "pages" qd = Some (PyList (PyDict pd :: rest)) ->
  truthy (default PyNone (assoc_get "missing" pd)) = false ->
  _load_response a s = (inr (PyDict d), warned d s).
Proof.
  intros Ha Hc Hq Hb Ht Hj He Hqd Hpg Hm.
  assert (truthy (PyDict qd) = true) as Hqt.
  { destruct qd; [discriminate|done]. }
  assert (String.eqb a "parse" = false /\ String.eqb a "wikidata" = false) as [Hp Hw].
  { split; apply String.eqb_neq; intros ->; discriminate. }
  rewrite (_load_response_mapping _ s r q b d) by done.
  rewrite Ha, Hp, Hw. mrun. cbn [py_get py_item]. rewrite Hqd.
  cbn [default from_option id]. rewrite Hqt. cbn [py_get py_item]. rewrite Hpg.
  cbn [default from_option id py_first py_get].
  assert (truthy (PyList (PyDict pd :: rest)) = true) as -> by done.
  by rewrite Hm.
Qed.


End ValidatorCases.

(** Instances, on sessions that hold one record. *)

Ltac by_running :=
  first [ by (vm_compute; reflexivity)
        | by (vm_compute; eexists)
        | by discriminate
        | by (intros ?; discriminate) ].

Lemma malformed_payload_rejected_witness :
  let q := "https://en.wikipedia.org/w/api.php?action=query&format=json" in
  let b := Body (Json.text "{'query':") in
  let r := mkRecord (Some q) (Some b) (Some RestPage.info) in
  let s := Canned.holding "query" r in
  let e := ValueError (Msg "No JSON object could be decoded") in
  _load_response (C := Canned.collaborators) "query" s
  = (inl (match e with
          | ValueError _ => ValueError (Msg (Text.replace "&format=json" EmptyString q))
          | _ => e
          end), s).
Proof.
  intros q b r s e.
  apply (malformed_payload_rejected (C := Canned.collaborators) "query" s r q b e);
    by_running.
Defined.

Lemma non_mapping_payload_raises_witness :
  let q := "https://en.wikipedia.org/w/api.php?action=query&format=json" in
  let b := Body (Json.text "[1, 2]") in
  let r := mkRecord (Some q) (Some b) (Some RestPage.info) in
  let s := Canned.holding "query" r in
  _load_response (C := Canned.collaborators) "query" s = (inl AttributeError, s) /\
  classified AttributeError = false.
Proof.
  intros q b r s.
  apply (non_mapping_payload_raises (C := Canned.collaborators) "query" s r q b
           (PyList [PyInt 1; PyInt 2])); by_running.
Defined.

Lemma api_error_reported_witness :
  let q := "https://en.wikipedia.org/w/api.php?action=query&format=json" in
  let b := Body (Json.text "{'warnings':'deprecated','error':'missingtitle'}") in
  let d := [("warnings", PyStr "deprecated"); ("error", PyStr "missingtitle")] in
  let r := mkRecord (Some q) (Some b) (Some RestPage.info) in
  let s := Canned.holding "query" r in
  _load_response (C := Canned.collaborators) "query" s
  = (inl (LookupError (Msg (Text.replace "&format=json" EmptyString q))),
     set_err (C := Canned.collaborators)
       (fun l => (l ++ ["API error: "
                        +:+ py_str (C := Canned.collaborators)
                              (default PyNone (assoc_get "error" d))])%list)
       (warned (C := Canned.collaborators) d s)).
Proof.
  intros q b d r s.
  apply (api_error_reported (C := Canned.collaborators) "query" s r q b d); by_running.
Defined.

Lemma parse_without_parse_not_found_witness :
  let q := "https://en.wikipedia.org/w/api.php?action=parse&format=json" in
  let b := Body (Json.text "{'noparse':true}") in
  let d := [("noparse", PyBool true)] in
  let r := mkRecord (Some q) (Some b) (Some RestPage.info) in
  let s := Canned.holding "parse" r in
  _load_response (C := Canned.collaborators) "parse" s
  = (inl (LookupError (Msg (Text.replace "&format=json" EmptyString q))),
     warned (C := Canned.collaborators) d s).
Proof.
  intros q b d r s.
  apply (parse_without_parse_not_found (C := Canned.collaborators) s r q b d); by_running.
Defined.

Lemma wikidata_minus_one_not_found_witness :
  let q := "https://www.wikidata.org/w/api.php?action=wbgetentities&format=json" in
  let b := Body (Json.text "{'entities':{'-1':{}}}") in
  let d := [("entities", PyDict [("-1", PyDict [])])] in
  let r := mkRecord (Some q) (Some b) (Some RestPage.info) in
  let s := Canned.holding "wikidata" r in
  _load_response (C := Canned.collaborators) "wikidata" s
  = (inl (LookupError (Msg (Text.replace "&format=json" EmptyString q))),
     warned (C := Canned.collaborators) d s).
Proof.
  intros q b d r s.
  apply (wikidata_minus_one_not_found (C := Canned.collaborators) s r q b d
           [("-1", PyDict [])]); by_running.
Defined.

Lemma other_action_payload_accepted_witness :
  let b := Body RestPage.response in
  let d := [("items",
             PyList (PyStr <$> ["data-parsoid"; "graph"; "html"; "mobile-sections";
                                "mobile-sections-lead"; "mobile-sections-remaining";
                                "pdf"; "random"; "related"; "segments"; "summary";
                                "title"; "wikitext"]))] in
  let s := Canned.holding "rest" RestPage.cache in
  _load_response (C := Canned.collaborators) "rest" s
  = (inr (PyDict d), warned (C := Canned.collaborators) d s).
Proof.
  intros b d s.
  apply (other_action_payload_accepted (C := Canned.collaborators) "rest" s
           RestPage.cache RestPage.query b d); by_running.
Defined.

Lemma found_page_accepted_witness :
  let q := "https://en.wikipedia.org/w/api.php?action=query&format=json" in
  let b := Body (Json.text "{'query':{'pages':[{'pageid':8091,'title':'Douglas Adams'}]}}") in
  let pd := [("pageid", PyInt 8091); ("title", PyStr "Douglas Adams")] in
  let qd := [("pages", PyList [PyDict pd])] in
  let d := [("query", PyDict qd)] in
  let r := mkRecord (Some q) (Some b) (Some RestPage.info) in
  let s := Canned.holding "query" r in
  _load_response (C := Canned.collaborators) "query" s
  = (inr (PyDict d), warned (C := Canned.collaborators) d s).
Proof.
  intros q b pd qd d r s.
  apply (found_page_accepted (C := Canned.collaborators) "query" s r q b d qd pd []);
    by_running.
Defined.


(** * Further properties of the formatter *)

Section FormatterCases.
Context `{C : Collaborators}.

Lemma append_length (a b : string) :
  String.length (a +:+ b) = (String.length a + String.length b)%nat.
Proof.
  induction a as [|c a IH]; [done|].
  change (String.length (String c (a +:+ b))
          = S (String.length a + String.length b)).
  cbn [String.length]. by rewrite IH.
Qed.

Lemma assoc_get_is_Some {A} (k : string) (d : list (string * A)) :
  k ∈ d.*1 -> is_Some (assoc_get k d).
Proof.
  induction d as [|[k' v] d IH]; cbn; [by intros ?%not_elem_of_nil|].
  intros [->|Hk]%elem_of_cons.
  - by rewrite String.eqb_refl.
  - destruct (String.eqb k k'); eauto.
Qed.

Lemma py_join_safestr sep (l : list pyval) :
  Forall (fun x => truthy x = true) l ->
  exists ss, py_join sep (map safestr l) = inr ss.
Proof.
  induction 1 as [|x l Hx _ [ss IH]]; cbn; [by eexists|].
  destruct x; try discriminate; cbn; rewrite IH; by eexists.
Qed.

Lemma show_item_ok maxwidth item v :
  exists o, show_item maxwidth item v = inr o.
Proof.
  assert (forall l, exists ss,
            py_join ", " (map safestr (filter (fun x => truthy x = true) l)) = inr ss)
    as Hj.
  { intros l. apply py_join_safestr, Forall_forall.
    by intros x [? _]%list_elem_of_filter. }
  unfold show_item. destruct v; try by eexists.
  - destruct (_ >? _); by eexists.
  - destruct (Hj l) as [ss ->]. by eexists.
  - destruct (Hj l) as [ss ->]. by eexists.
Qed.

Lemma show_items_ok maxwidth d items :
  Forall (fun k => is_Some (assoc_get k d)) items ->
  exists ls, show_items maxwidth d items = inr ls /\ (length ls <= length items)%nat.
Proof.
  induction 1 as [|k items [v Hk] _ (ls & IH & Hl)]; cbn; [by eexists|].
  rewrite Hk, IH. destruct (show_item_ok maxwidth k v) as [[l|] ->].
  - eexists. split; [done|]. cbn. lia.
  - eexists. split; [done|]. lia.
Qed.

Lemma sorted_keys_cached (d : Data) :
  Forall (fun k => is_Some (assoc_get k d)) (sorted_keys d).
Proof.
  apply Forall_forall. intros k Hk. apply assoc_get_is_Some.
  unfold sorted_keys in Hk. by rewrite merge_sort_Permutation in Hk.
Qed.

(** X9: [show] never raises, whatever the data hold, and touches
    nothing but the diagnostic channel; in a silent session or with no
    data it does nothing at all; otherwise it writes the header, the
    opening brace, at most one line for each field and the closing
    brace, each as [prettyprint] cuts it. *)
Theorem show_never_raises s :
  (show s).1 = inr tt /\ quiet s (show s).2 /\
  (silent (flags s) = true \/ data s = [] -> (show s).2 = s) /\
  (silent (flags s) = false -> data s <> [] ->
   exists header body,
     err (show s).2 = (err s ++ map clipped ([header; "{"] ++ body ++ ["}"]))%list /\
     (length body <= length (data s))%nat).
Proof.
  split; [|split; [apply show_quiet|]].
  - unfold show. mrun. destruct (_ || _); [reflexivity|].
    destruct (show_items_ok MAXWIDTH (data s) (sorted_keys (data s))
                (sorted_keys_cached _)) as (ls & -> & _).
    by rewrite prettyprint_eval.
  - split.
    + intros Hs. unfold show. mrun.
      destruct Hs as [->| Hd]; [done|].
      rewrite bool_decide_true by done. by rewrite orb_true_r.
    + intros Hs Hd. unfold show. mrun. rewrite Hs, bool_decide_false by done.
      cbn [orb].
      destruct (show_items_ok MAXWIDTH (data s) (sorted_keys (data s))
                  (sorted_keys_cached _)) as (ls & -> & Hl).
      rewrite prettyprint_eval. cbn. fields. eexists _, ls. split; [done|].
      unfold sorted_keys in Hl.
      by rewrite merge_sort_Permutation, length_fmap in Hl.
Qed.

(** X10: when the right padding is at least two and fits in the
    maximal width, every line that [prettyprint] writes is shorter than
    the maximal width, and it writes as many lines as it is given. *)
Theorem prettyprint_bounded_width datastr s :
  2 <= RPAD -> RPAD + 2 <= MAXWIDTH ->
  exists written,
    err (prettyprint datastr s).2 = (err s ++ written)%list /\
    length written = length datastr /\
    Forall (fun out => Text.len out < MAXWIDTH) written.
Proof.
  intros Hr Hm. exists (map clipped datastr). rewrite prettyprint_eval.
  split; [done|]. split; [by rewrite length_map|].
  apply Forall_forall. intros out (line & -> & _)%list_elem_of_fmap.
  unfold clipped. destruct (Z.geb_spec (Text.len line) MAXWIDTH) as [Hl|Hl]; [|done].
  unfold Text.len, Text.slice_to in *. rewrite (proj2 (Z.ltb_ge _ _)) by lia.
  rewrite append_length, substring_length by lia. cbn. lia.
Qed.

End FormatterCases.

Lemma prettyprint_bounded_width_witness :
  exists written,
    err (prettyprint (C := Canned.collaborators)
           ["  title: Douglas Adams";
            "  extract: Douglas Noel Adams was an English author, humourist and screenwriter."]
           (Canned.fresh [] [])).2
    = (err (Canned.fresh [] []) ++ written)%list /\
    length written = 2%nat /\
    Forall (fun out => Text.len out < 72) written.
Proof.
  apply (prettyprint_bounded_width (C := Canned.collaborators)
           ["  title: Douglas Adams";
            "  extract: Douglas Noel Adams was an English author, humourist and screenwriter."]
           (Canned.fresh [] [])); cbn; lia.
Defined.

(** * Further properties of the orchestrator *)

Section OrchestratorCases.
Context `{C : Collaborators}.

(** X11: a call of [_get] that reaches the transport (the action is not
    cached, or is imageinfo, and is not skipped) and gets a response
    back leaves, whatever the validation then does, the record of the
    action made of exactly the query string built, the response and
    the request info, in place of any earlier record; the transport
    was invoked once; and the inspectors [info] and [query] return the
    request info and the query string without its format marker. *)
Theorem fetched_record_is_stored a sh proxy timeout s qstr qobj b i w :
  cache s !! a = None \/ a = "imageinfo" ->
  in_skip (flags s) a = false ->
  _query a (query_new (lang (params s)) (wiki (params s)) (variant (params s)))
    (params s) (data s) = inr (qstr, qobj) ->
  request_get (silent (flags s)) (verbose (flags s)) proxy timeout qstr
    (query_status qobj) (world s) = (inr (b, i), w) ->
  let out := _get a sh proxy timeout s in
  cache out.2 = <[a := mkRecord (Some qstr) (Some b) (Some i)]> (cache s) /\
  requests out.2 = mkRequest a qstr (query_status qobj) (inr (b, i)) :: requests s /\
  info (Some a) out.2 = (inr (Found i), out.2) /\
  query (Some a) out.2
  = (inr (Found (Text.replace "&format=json" EmptyString qstr)), out.2).
Proof.
  intros Hm Hs Hq Hg out. subst out. rewrite (_get_built _ _ _ _ _ qstr qobj) by done.
  destruct (_get_request_after a qstr qobj sh proxy timeout (queried a qstr s) _ qstr
              (queried_lookup a qstr s) eq_refl) as [Hr Hc].
  change (flags (queried a qstr s)) with (flags s) in Hr, Hc.
  change (world (queried a qstr s)) with (world s) in Hr, Hc.
  change (requests (queried a qstr s)) with (requests s) in Hr.
  rewrite Hg in Hr, Hc. cbn [fst snd] in Hr, Hc. destruct Hc as [Hc _].
  assert (cache (_get_request a qstr qobj sh proxy timeout (queried a qstr s)).2
          = <[a := mkRecord (Some qstr) (Some b) (Some i)]> (cache s)) as Hc'.
  { rewrite Hc. unfold queried. cbn. fields. by rewrite insert_insert_eq. }
  split; [done|]. split; [done|].
  unfold info, query, cached. mrun. cbn [mbind option_bind].
  by rewrite Hc', lookup_insert_eq.
Qed.

(** X12: when the transport raises, the call of [_get] raises the same
    exception; the record of an action that was not cached then holds
    the query string and nothing else, so that [query] returns the
    string without its format marker while [info] and [response]
    raise a [KeyError]; data and params are as before. *)
Theorem transport_failure_leaves_query a sh proxy timeout s qstr qobj e w :
  cache s !! a = None ->
  in_skip (flags s) a = false ->
  _query a (query_new (lang (params s)) (wiki (params s)) (variant (params s)))
    (params s) (data s) = inr (qstr, qobj) ->
  request_get (silent (flags s)) (verbose (flags s)) proxy timeout qstr
    (query_status qobj) (world s) = (inl e, w) ->
  let out := _get a sh proxy timeout s in
  out.1 = inl e /\
  cache out.2 = <[a := mkRecord (Some qstr) None None]> (cache s) /\
  data out.2 = data s /\ params out.2 = params s /\
  (query (Some a) out.2).1
  = inr (Found (Text.replace "&format=json" EmptyString qstr)) /\
  (info (Some a) out.2).1 = inl (KeyError (PyStr "info")) /\
  (response (Some a) out.2).1 = inl (KeyError (PyStr "response")).
Proof.
  intros Hm Hs Hq Hg out. subst out. rewrite (_get_built _ _ _ _ _ qstr qobj) by auto.
  rewrite (_get_request_eval _ _ _ _ _ _ _ _ (queried_lookup a qstr s)).
  change (flags (queried a qstr s)) with (flags s).
  change (world (queried a qstr s)) with (world s).
  rewrite Hg. cbv zeta. cbn [fst snd]. unfold queried. rewrite Hm. cbn. fields.
  split; [done|]. split; [done|]. split; [done|]. split; [done|].
  unfold info, query, response, cached. mrun. cbn [mbind option_bind]. fields.
  by rewrite lookup_insert_eq.
Qed.

(** X13: when the query builder raises, as both abstract methods of
    the class do, the call of [_get] raises the same exception without
    an invocation of the transport, and an action that was not cached
    is left with an empty record. *)
Theorem builder_failure_leaves_placeholder a sh proxy timeout s e :
  cache s !! a = None ->
  in_skip (flags s) a = false ->
  _query a (query_new (lang (params s)) (wiki (params s)) (variant (params s)))
    (params s) (data s) = inl e ->
  _get a sh proxy timeout s = (inl e, set_cache (<[a := empty_record]>) s).
Proof.
  intros Hm Hs Hq. rewrite (_get_unbuilt _ _ _ _ _ e) by auto.
  unfold entered. rewrite Hm. by rewrite bool_decide_false by by intros [??].
Qed.


(** X15: no sequence of calls of [_get] removes an entry of the cache,
    and every action that was fetched, with whatever outcome, is
    cached afterwards. *)
Theorem cache_never_shrinks fs s :
  let s' := run fs s in
  (forall k, is_Some (cache s !! k) -> is_Some (cache s' !! k)) /\
  (forall f, f ∈ fs -> is_Some (cache s' !! f_action f)).
Proof.
  assert (forall f s0 k, is_Some (cache s0 !! k) ->
                         is_Some (cache (fetch f s0).2 !! k)) as Hstep.
  { intros [a sh proxy timeout] s0 k Hk. unfold fetch. cbn.
    destruct (_get_off a sh proxy timeout s0) as (_ & Ho & Hs & _).
    destruct (decide (k = a)) as [->|Hne]; [auto|]. by rewrite Ho. }
  revert s. induction fs as [|f fs IH]; intros s; cbn.
  - split; [done|]. by intros f ?%not_elem_of_nil.
  - destruct (IH (fetch f s).2) as [IH1 IH2]. unfold run in *. split.
    + intros k Hk. by apply IH1, Hstep.
    + intros g [->|Hg]%elem_of_cons; [|by apply IH2].
      apply IH1. destruct f as [a sh proxy timeout]. apply _get_cached.
Qed.

Lemma fetch_invocations a f s :
  a <> "imageinfo" ->
  is_Some (cache s !! a) \/ invocations a s = 0%nat ->
  (invocations a s <= 1)%nat ->
  let s' := (fetch f s).2 in
  (is_Some (cache s' !! a) \/ invocations a s' = 0%nat) /\
  (invocations a s' <= 1)%nat.
Proof.
  intros Ha Hinv Hle s'. subst s'. destruct f as [b sh proxy timeout].
  unfold fetch. cbn [f_action f_show f_proxy f_timeout].
  destruct (decide (b = a)) as [->|Hne].
  - split; [left; apply _get_cached|].
    destruct (_get_cases a sh proxy timeout s) as [Hr|(qstr&qobj&Hm&_&_&Hg)].
    + by rewrite (invocations_same a s).
    + destruct Hm as [Hm|Hm]; [|done].
      destruct Hinv as [[r Hr]|H0]; [congruence|].
      rewrite Hg.
      destruct (_get_request_after a qstr qobj sh proxy timeout (queried a qstr s) _ qstr
                  (queried_lookup a qstr s) eq_refl) as [Hr _].
      rewrite (invocations_cons a (queried a qstr s) _ _ Hr).
      rewrite (invocations_same a s (queried a qstr s)) by done.
      case_decide; lia.
  - destruct (_get_off b sh proxy timeout s) as (_ & Ho & _ & new & Hr & Hn).
    assert (invocations a (_get b sh proxy timeout s).2 = invocations a s) as ->.
    { unfold invocations. rewrite Hr, filter_app, length_app.
      by rewrite (filter_other_action a b new). }
    rewrite Ho by done. done.
Qed.

(** X16: in a session started by [__init__], whatever sequence of calls
    of [_get] is made, the transport is invoked at most once for an
    action other than imageinfo. *)
Theorem at_most_one_invocation args kwargs w a fs :
  a <> "imageinfo" ->
  (invocations a (run fs (__init__ args kwargs w)) <= 1)%nat.
Proof.
  intros Ha.
  assert (forall s,
            is_Some (cache s !! a) \/ invocations a s = 0%nat ->
            (invocations a s <= 1)%nat ->
            (invocations a (run fs s) <= 1)%nat) as Hrun.
  { induction fs as [|f fs IH]; intros s Hinv Hle; [done|].
    destruct (fetch_invocations a f s Ha Hinv Hle) as [Hinv' Hle'].
    by apply IH. }
  apply Hrun; [by right|]. unfold invocations, __init__. cbn. lia.
Qed.

(** X18: on a session just made, every inspector returns [None],
    with or without an action. *)
Theorem fresh_session_has_no_result args kwargs w action :
  let s := __init__ args kwargs w in
  info action s = (inr NoResult, s) /\
  query action s = (inr NoResult, s) /\
  response action s = (inr NoResult, s).
Proof.
  intros s.
  assert (cache s = ∅) as Hc by done.
  assert (bool_decide (dom (cache s) = ∅) = true) as Hd.
  { apply bool_decide_eq_true. rewrite Hc. apply dom_empty_L. }
  unfold info, query, response, cached, cached_actions. mrun.
  assert (option_bind _ _ (fun a => cache s !! a) action = None) as ->.
  { destruct action; cbn [option_bind]; [|done]. rewrite Hc. apply lookup_empty. }
  by rewrite Hd.
Qed.

End OrchestratorCases.

(** * The display form of the query string *)

Section QueryDisplay.
Context `{C : Collaborators}.

Lemma replace_absent (old q : string) :
  Text.contains old q = false -> Text.replace old EmptyString q = q.
Proof.
  unfold Text.replace. induction q as [|c q IH]; [done|].
  cbn [Text.contains Text.replace_from]. intros [Hp Hq]%orb_false_elim.
  rewrite Hp. by rewrite IH.
Qed.

(** A text that is a prefix of [p] followed by [m] is a prefix of [p],
    or holds the first character of [m]. *)
Lemma prefix_append_split (x p : string) (h : ascii) (m : string) :
  String.prefix x (p +:+ String h m) = true ->
  String.prefix x p = true \/ Text.contains (String h EmptyString) x = true.
Proof.
  revert p. induction x as [|c x IH]; intros p; [left; by destruct p|].
  destruct p as [|c' p].
  - change (EmptyString +:+ String h m) with (String h m). cbn.
    destruct (Ascii.ascii_dec c h) as [->|]; [|done]. intros _. right.
    destruct (Ascii.ascii_dec h h); [|done]. by destruct x.
  - change (String c' p +:+ String h m) with (String c' (p +:+ String h m)). cbn.
    destruct (Ascii.ascii_dec c c') as [->|]; [|done]. intros [Hx|Hx]%IH; [by left|].
    right. rewrite Hx. apply orb_true_r.
Qed.

Lemma replace_marker_suffix (p : string) :
  Text.contains "&format=json" p = false ->
  Text.replace "&format=json" EmptyString (p +:+ "&format=json") = p.
Proof.
  unfold Text.replace. induction p as [|c p IH]; [done|].
  cbn [Text.contains]. intros [Hp Hq]%orb_false_elim.
  change (String c p +:+ "&format=json") with (String c (p +:+ "&format=json")).
  cbn [Text.replace_from].
  destruct (String.prefix "&format=json" (String c (p +:+ "&format=json"))) eqn:E.
  - exfalso. revert E Hp. cbn [String.prefix].
    destruct (Ascii.ascii_dec "&" c); [|done].
    intros [E|E]%prefix_append_split; [congruence|discriminate].
  - by rewrite IH.
Qed.

(** X19: when the stored query string is a text without the format
    marker followed by the marker, the inspector [query] returns that
    text: the marker is taken off and nothing else is changed. *)
Theorem query_strips_marker a s r p :
  cache s !! a = Some r -> rec_query r = Some (p +:+ "&format=json") ->
  Text.contains "&format=json" p = false ->
  query (Some a) s = (inr (Found p), s).
Proof.
  intros Hc Hq Hp. unfold query, cached. mrun. cbn [mbind option_bind].
  rewrite Hc, Hq. unfold field. mrun.
  by rewrite (replace_marker_suffix p Hp).
Qed.

(** X20: when the stored query string does not hold the format marker,
    as for a REST request, the inspector [query] returns it as it is. *)
Theorem query_without_marker_unchanged a s r q :
  cache s !! a = Some r -> rec_query r = Some q ->
  Text.contains "&format=json" q = false ->
  query (Some a) s = (inr (Found q), s).
Proof.
  intros Hc Hq Hp. unfold query, cached. mrun. cbn [mbind option_bind].
  rewrite Hc, Hq. unfold field. mrun.
  by rewrite (replace_absent _ q Hp).
Qed.

End QueryDisplay.

(** Instances of the further properties. *)

Lemma fetched_record_is_stored_witness :
  let s := (_get (C := Canned.collaborators) "imageinfo" false PyNone PyNone
              (Canned.fresh []
                 [Canned.ok "{'query':{'pages':[{'pageid':1}]}}";
                  Canned.ok "{'query':{'pages':[{'pageid':2}]}}"])).2 in
  let qstr := "https://en.wikipedia.org/w/api.php?action=imageinfo&format=json" in
  let qobj := Canned.mkQuery "en" None None (PyStr qstr) in
  let b := Body (Json.text "{'query':{'pages':[{'pageid':2}]}}") in
  let out := _get (C := Canned.collaborators) "imageinfo" true PyNone PyNone s in
  cache out.2 = <["imageinfo" := mkRecord (Some qstr) (Some b) (Some RestPage.info)]> (cache s) /\
  requests out.2
  = mkRequest "imageinfo" qstr (query_status (Collaborators := Canned.collaborators) qobj)
      (inr (b, RestPage.info)) :: requests s /\
  info (Some "imageinfo") out.2 = (inr (Found RestPage.info), out.2) /\
  query (Some "imageinfo") out.2
  = (inr (Found (Text.replace "&format=json" EmptyString qstr)), out.2).
Proof.
  intros s qstr qobj b.
  apply (fetched_record_is_stored (C := Canned.collaborators) "imageinfo" true
           PyNone PyNone s qstr qobj b RestPage.info []); [by right|by_running..].
Defined.

Lemma transport_failure_leaves_query_witness :
  let s := Canned.fresh [] [inl (TransportError "timed out")] in
  let qstr := "https://en.wikipedia.org/w/api.php?action=query&format=json" in
  let out := _get (C := Canned.collaborators) "query" false PyNone PyNone s in
  out.1 = inl (TransportError "timed out") /\
  cache out.2 = <["query" := mkRecord (Some qstr) None None]> (cache s) /\
  data out.2 = data s /\ params out.2 = params s /\
  (query (Some "query") out.2).1
  = inr (Found (Text.replace "&format=json" EmptyString qstr)) /\
  (info (Some "query") out.2).1 = inl (KeyError (PyStr "info")) /\
  (response (Some "query") out.2).1 = inl (KeyError (PyStr "response")).
Proof.
  intros s qstr.
  apply (transport_failure_leaves_query (C := Canned.collaborators) "query" false
           PyNone PyNone s qstr (Canned.mkQuery "en" None None (PyStr qstr))
           (TransportError "timed out") []); by_running.
Defined.

Lemma builder_failure_leaves_placeholder_witness :
  let s := __init__ (C := Abstract.collaborators) ["Douglas Adams"]
             (mkKwargs false false None [] None None) tt in
  _get (C := Abstract.collaborators) "query" false PyNone PyNone s
  = (inl NotImplementedError,
     set_cache (C := Abstract.collaborators) (<["query" := empty_record]>) s).
Proof.
  intros s.
  apply (builder_failure_leaves_placeholder (C := Abstract.collaborators) "query"
           false PyNone PyNone s NotImplementedError); by_running.
Defined.


Lemma at_most_one_invocation_witness :
  (invocations "query"
     (run (C := Canned.collaborators)
        [mkFetch "query" false PyNone PyNone; mkFetch "parse" false PyNone PyNone;
         mkFetch "query" true PyNone PyNone]
        (__init__ (C := Canned.collaborators) ["Douglas Adams"]
           (mkKwargs true false None [] None None)
           [Canned.ok "{'query':{'pages':[{'pageid':8091}]}}"])) <= 1)%nat.
Proof.
  apply (at_most_one_invocation (C := Canned.collaborators) ["Douglas Adams"]
           (mkKwargs true false None [] None None)
           [Canned.ok "{'query':{'pages':[{'pageid':8091}]}}"] "query"
           [mkFetch "query" false PyNone PyNone; mkFetch "parse" false PyNone PyNone;
            mkFetch "query" true PyNone PyNone]).
  discriminate.
Defined.

Lemma query_strips_marker_witness :
  let p := "https://en.wikipedia.org/w/api.php?action=query&titles=Douglas_Adams" in
  let r := mkRecord (Some (p +:+ "&format=json")) None None in
  let s := Canned.holding "query" r in
  query (C := Canned.collaborators) (Some "query") s = (inr (Found p), s).
Proof.
  intros p r s.
  apply (query_strips_marker (C := Canned.collaborators) "query" s r p); by_running.
Defined.

Lemma query_without_marker_unchanged_witness :
  let s := Canned.holding "rest" RestPage.cache in
  query (C := Canned.collaborators) (Some "rest") s = (inr (Found RestPage.query), s).
Proof.
  intros s.
  apply (query_without_marker_unchanged (C := Canned.collaborators) "rest" s
           RestPage.cache RestPage.query); by_running.
Defined.

(** The marker can come back: taking it off a text in which it is
    nested leaves the marker. *)
Example nested_marker_survives :
  query (C := Canned.collaborators) (Some "query")
    (Canned.holding "query"
       (mkRecord (Some "https://x/?a&format=&format=jsonjson") None None))
  = (inr (Found "https://x/?a&format=json"),
     Canned.holding "query"
       (mkRecord (Some "https://x/?a&format=&format=jsonjson") None None)).
Proof. reflexivity. Qed.

(** * The session over its life *)

Section Lifecycle.
Context `{C : Collaborators}.


Lemma fetch_keeps_flags f s : flags (fetch f s).2 = flags s.
Proof. destruct f as [a sh proxy timeout]. apply (_get_off a sh proxy timeout s). Qed.

Lemma run_keeps_flags fs s : flags (run fs s) = flags s.
Proof.
  revert s. induction fs as [|f fs IH]; intros s; [done|].
  cbn. unfold run in IH. rewrite IH. apply fetch_keeps_flags.
Qed.

(** X17: throughout a session, after any sequence of calls of [_get],
    the actions that are skipped are exactly those of the skip list
    that the session was made with. *)
Theorem skip_policy_is_skip_list args kwargs w fs a :
  in_skip (flags (run fs (__init__ args kwargs w))) a = true <-> a ∈ kw_skip kwargs.
Proof.
  rewrite run_keeps_flags. split; [|apply in_skip_init].
  unfold __init__, in_skip. cbn. fields.
  destruct (kw_skip kwargs) as [|x sk]; cbn; [done|].
  by intros ?%bool_decide_eq_true.
Qed.

(** X22: no sequence of calls of [_get], whatever they return or raise,
    changes the flags of the session: silence, verbosity and the skip
    list are fixed when the session is made. *)
Theorem flags_never_change fs s : flags (run fs s) = flags s.
Proof. apply run_keeps_flags. Qed.

Lemma _set_data_returned a s s' :
  _set_data a s = (inr tt, s') ->
  exists v s1, _load_response a s = (inr v, s1) /\
               capture a v (data s1) (params s1) = inr (data s', params s').
Proof.
  unfold _set_data. mrun.
  destruct (_load_response a s) as [[e|v] s1]; [done|].
  destruct (capture a v (data s1) (params s1)) as [e|[d' p']] eqn:E; [done|].
  intros [= <-]. by exists v, s1.
Qed.

(** X23: when a call of [_get] has invoked the transport and returned
    without raising, the data and the params of the session are what
    the capture made of the payload decoded from the response, from the
    data and the params that the session had before the call. *)
Theorem successful_fetch_captures a sh proxy timeout s s' rq :
  _get a sh proxy timeout s = (inr tt, s') ->
  requests s' = rq :: requests s ->
  exists b i v,
    rq_result rq = inr (b, i) /\ json_loads b = inr v /\
    capture a v (data s) (params s) = inr (data s', params s').
Proof.
  intros Hg Hr.
  destruct (_get_cases a sh proxy timeout s) as [Hs|(qstr&qobj&_&_&_&Hb)].
  { rewrite Hg in Hs. simpl in Hs. rewrite Hs in Hr. by apply cons_neq in Hr. }
  rewrite Hb in Hg.
  rewrite (_get_request_eval _ _ _ _ _ _ _ _ (queried_lookup a qstr s)) in Hg.
  cbv zeta in Hg.
  destruct (request_get _ _ _ _ _ _ _).1 as [e|[b i]] eqn:E; [done|].
  revert Hg. match goal with |- context [(_ ;; _) ?s0] => set (s2 := s0) end.
  unfold mbind at 1, M_bind at 1.
  destruct (_set_data a s2) as [[e|[]] s3] eqn:E2; [done|]. intros Hsh.
  assert (data s' = data s3 /\ params s' = params s3 /\ requests s' = requests s3)
    as (Hd & Hp & Hq).
  { destruct sh; [|by injection Hsh as <-].
    destruct (show_quiet s3) as (_ & Hd & _ & Hp & _ & Hq).
    rewrite Hsh in Hd, Hp, Hq. done. }
  destruct (_set_data_same_store a s2) as (_ & _ & _ & Hq2). rewrite E2 in Hq2.
  cbn [snd] in Hq2.
  assert (requests s2 = mkRequest a qstr (query_status qobj) (inr (b, i)) :: requests s)
    as Hq3 by done.
  assert (rq = mkRequest a qstr (query_status qobj) (inr (b, i))) as ->.
  { rewrite Hq, Hq2, Hq3 in Hr. by injection Hr as <-. }
  destruct (_set_data_returned a s2 s3 E2) as (v & s1 & Hl & Hcap).
  destruct (_load_response_quiet a s2) as (_ & Hd1 & _ & Hp1 & _).
  rewrite Hl in Hd1, Hp1. cbn [snd] in Hd1, Hp1.
  assert (data s2 = data s /\ params s2 = params s) as [Hd2 Hp2] by done.
  exists b, i, v. split; [done|]. split.
  - rewrite (_load_response_eval a s2
               (set_info i (set_response b (set_query qstr
                  (default empty_record (cache s !! a)))))
               qstr b) in Hl; [|by subst s2; cbn; fields; apply lookup_insert_eq|done..].
    by apply (validate_yields _ _ _ _ _ _ Hl).
  - rewrite Hd, Hp. rewrite <- Hd2, <- Hp2, <- Hd1, <- Hp1. done.
Qed.

End Lifecycle.

Lemma successful_fetch_captures_witness :
  let s := Canned.fresh [] [inr (Body RestPage.response, RestPage.info)] in
  let s' := (_get (C := Canned.collaborators) "rest" true PyNone PyNone s).2 in
  let rq := mkRequest "rest" RestPage.query (PyStr RestPage.query)
              (inr (Body RestPage.response, RestPage.info)) in
  exists b i v,
    rq_result rq = inr (b, i) /\
    json_loads (Collaborators := Canned.collaborators) b = inr v /\
    capture (Collaborators := Canned.collaborators) "rest" v (data s) (params s)
    = inr (data s', params s').
Proof.
  intros s s' rq.
  apply (successful_fetch_captures (C := Canned.collaborators) "rest" true
           PyNone PyNone s s' rq).
  - subst s'. apply pair_of_fst. vm_compute. reflexivity.
  - vm_compute. reflexivity.
Defined.
